(** * LibraryClient (src/library.py): request, sanitize, mask, format

    A shallow embedding of the [LibraryClient] class and the properties of
    its masking, sanitizing, formatting and fetching code. *)

From Stdlib Require Import NArith ZArith Floats Ascii String.
From stdpp Require Import gmap strings list.

Open Scope N_scope.
Open Scope nat_scope.

(** ** Python strings

    A Python [str] is a sequence of Unicode code points; [len], slicing and
    the [re] module all count code points. *)

Abbreviation pychar := N (only parsing).
Abbreviation pystr := (list N) (only parsing).

(** Literals are written as Rocq strings, which hold the UTF-8 bytes of the
    text; [py] decodes them to the code points the Python literal holds. *)
Fixpoint utf8_decode (bs : list N) : pystr :=
  match bs with
  | [] => []
  | b0 :: r0 =>
    if (b0 <? 128)%N then b0 :: utf8_decode r0
    else match r0 with
    | [] => []
    | b1 :: r1 =>
      if (b0 <? 224)%N then ((b0 mod 32) * 64 + b1 mod 64)%N :: utf8_decode r1
      else match r1 with
      | [] => []
      | b2 :: r2 =>
        if (b0 <? 240)%N
        then ((b0 mod 16) * 4096 + (b1 mod 64) * 64 + b2 mod 64)%N :: utf8_decode r2
        else match r2 with
        | [] => []
        | b3 :: r3 =>
          ((b0 mod 8) * 262144 + (b1 mod 64) * 4096 + (b2 mod 64) * 64 + b3 mod 64)%N
            :: utf8_decode r3
        end
      end
    end
  end.

Definition py (s : string) : pystr :=
  utf8_decode (map N_of_ascii (list_ascii_of_string s)).

Definition star : pychar := 42%N.

(** ** Character classes of the [re] module

    [\d] and [\w] on a [str] pattern are Unicode aware: [\d] is the category
    Nd and [\w] is [str.isalnum] or the underscore.  Below U+0080 both are
    the ASCII sets; above, they are read from the interpreter's Unicode
    tables, which are parameters here. *)

Definition cls := pychar → bool.

Definition in_range (lo hi c : N) : bool := (lo <=? c)%N && (c <=? hi)%N.
Definition ascii_digit (c : pychar) : bool := in_range 48 57 c.
Definition ascii_upper (c : pychar) : bool := in_range 65 90 c.
Definition ascii_lower (c : pychar) : bool := in_range 97 122 c.

(** [[0-9A-Za-z]] *)
Definition cls_ascii_alnum : cls :=
  λ c, ascii_digit c || ascii_upper c || ascii_lower c.

(** [[0-9Xx]] *)
Definition cls_digit_or_x : cls :=
  λ c, ascii_digit c || (c =? 88)%N || (c =? 120)%N.

(** ** A matcher for the fixed-width patterns of the module

    Every pattern of [library.py] is an alternation of sequences of pieces
    [c{n}] (one character class repeated a fixed number of times), some of
    them capture groups.  Alternatives are tried left to right at a position,
    positions left to right, as [re] does; nothing follows an alternation in
    these patterns, so the first alternative that fits is the match. *)

Record piece := Piece { p_cls : cls; p_count : nat; p_group : bool }.

Definition seqpat := list piece.
Definition pattern := list seqpat.

(** A matched piece: whether it is a capture group, and the text it matched. *)
Definition segment := (bool * pystr)%type.

Definition seg_text (segs : list segment) : pystr := concat (map snd segs).
Definition seg_groups (segs : list segment) : list pystr :=
  map snd (List.filter fst segs).

Fixpoint match_rep (c : cls) (n : nat) (s : pystr) : option (pystr * pystr) :=
  match n with
  | 0 => Some ([], s)
  | S n' =>
    match s with
    | [] => None
    | x :: s' =>
      if c x then
        match match_rep c n' s' with
        | Some (m, r) => Some (x :: m, r)
        | None => None
        end
      else None
    end
  end.

Fixpoint match_seq (p : seqpat) (s : pystr) : option (list segment * pystr) :=
  match p with
  | [] => Some ([], s)
  | pc :: p' =>
    match match_rep (p_cls pc) (p_count pc) s with
    | None => None
    | Some (m, r) =>
      match match_seq p' r with
      | None => None
      | Some (segs, r') => Some ((p_group pc, m) :: segs, r')
      end
    end
  end.

(** The pattern matched at the start of [s]: the first alternative that fits. *)
Fixpoint match_here (p : pattern) (s : pystr) : option (list segment * pystr) :=
  match p with
  | [] => None
  | a :: p' =>
    match match_seq a s with
    | Some r => Some r
    | None => match_here p' s
    end
  end.

(** The match object of [re.search]: where the match starts and what it
    matched.  The two searched patterns are wholly enclosed in group 1, so
    [m.group(1)], [m.start(1)] and [m.end(1)] are the text, start and end
    of the match. *)
Record rmatch := RMatch { m_start : nat; m_segs : list segment }.

Definition m_group1 (m : rmatch) : pystr := seg_text (m_segs m).
Definition m_end (m : rmatch) : nat := m_start m + length (m_group1 m).

Fixpoint search_from (p : pattern) (i : nat) (s : pystr) : option rmatch :=
  match match_here p s with
  | Some (segs, _) => Some (RMatch i segs)
  | None =>
    match s with
    | [] => None
    | _ :: s' => search_from p (S i) s'
    end
  end.

Definition re_search (p : pattern) (s : pystr) : option rmatch := search_from p 0 s.

(** [re.fullmatch] of a single sequence. *)
Definition re_fullmatch (p : seqpat) (s : pystr) : bool :=
  match match_seq p s with
  | Some (_, []) => true
  | _ => false
  end.

(** Replacement templates: literal text and group references [\k]. *)
Inductive titem := TLit (s : pystr) | TGroup (k : nat).

Definition expand (t : list titem) (segs : list segment) : pystr :=
  concat (map (λ it, match it with
                     | TLit s => s
                     | TGroup k => nth (k - 1) (seg_groups segs) []
                     end) t).

(** [re.sub]: every non-overlapping match, left to right, is replaced by the
    expanded template.  [skip] counts the characters of the current match
    still to be passed over.  No pattern here matches the empty string; an
    empty match is treated as no match. *)
Fixpoint sub_from (p : pattern) (t : list titem) (skip : nat) (s : pystr) : pystr :=
  match s with
  | [] => []
  | x :: s' =>
    match skip with
    | S k => sub_from p t k s'
    | 0 =>
      match match_here p s with
      | Some (segs, _) =>
        match length (seg_text segs) with
        | 0 => x :: sub_from p t 0 s'
        | S k => expand t segs ++ sub_from p t k s'
        end
      | None => x :: sub_from p t 0 s'
      end
    end
  end.

Definition re_sub (p : pattern) (t : list titem) (s : pystr) : pystr := sub_from p t 0 s.

(** ** The masking transforms *)

Section Masking.

(** Category Nd and [str.isalnum] on the code points from U+0080 up. *)
Variable uni_Nd : pychar → bool.
Variable uni_alnum : pychar → bool.

(** [\d] *)
Definition cls_d : cls :=
  λ c, if (c <? 128)%N then ascii_digit c else uni_Nd c.

(** [\w] *)
Definition cls_w : cls :=
  λ c, if (c <? 128)%N then cls_ascii_alnum c || (c =? 95)%N
       else uni_Nd c || uni_alnum c.

Definition rep (c : cls) (n : nat) : piece := Piece c n false.
Definition grp (c : cls) (n : nat) : piece := Piece c n true.

(** [(\d{11})] *)
Definition pat_phone : pattern := [[grp cls_d 11]].
(** [\d] *)
Definition pat_digit : pattern := [[rep cls_d 1]].
(** [(\d{3})\d{4}(\d{4})] and its template [\1****\2] *)
Definition pat_phone_parts : pattern := [[grp cls_d 3; rep cls_d 4; grp cls_d 4]].
Definition tmpl_phone : list titem := [TGroup 1; TLit (replicate 4 star); TGroup 2].
(** the replacement ["*"] *)
Definition tmpl_star : list titem := [TLit [star]].

Definition _mask_phone (number : pystr) : pystr :=
  match re_search pat_phone number with
  | None => re_sub pat_digit tmpl_star number
  | Some m =>
    let digits := m_group1 m in
    let masked := re_sub pat_phone_parts tmpl_phone digits in
    let prefix := take (m_start m) number in
    let suffix := drop (m_end m) number in
    prefix ++ masked ++ suffix
  end.

(** [(\d{17}[0-9Xx]|\d{15})] *)
Definition pat_id : pattern :=
  [[rep cls_d 17; rep cls_digit_or_x 1]; [rep cls_d 15]].
(** [[0-9A-Za-z]] *)
Definition pat_ascii_alnum : pattern := [[rep cls_ascii_alnum 1]].
(** [\d{6}\d{8}\w{4}], with the groups of [(\d{6})\d{8}(\w{4})], and the
    template [\1********\2] *)
Definition seq_id18 : seqpat := [grp cls_d 6; rep cls_d 8; grp cls_w 4].
Definition tmpl_id18 : list titem := [TGroup 1; TLit (replicate 8 star); TGroup 2].
(** [\d{6}\d{5}\w{4}], with the groups of [(\d{6})\d{5}(\w{4})], and the
    template [\1******\2] *)
Definition seq_id15 : seqpat := [grp cls_d 6; rep cls_d 5; grp cls_w 4].
Definition tmpl_id15 : list titem := [TGroup 1; TLit (replicate 6 star); TGroup 2].

(** The generic mask of the last branch: [core[:3]], stars, [core[-2:]]. *)
Definition generic_mask (core : pystr) : pystr :=
  if 5 <? length core
  then take 3 core ++ replicate (length core - 5) star ++ drop (length core - 2) core
  else replicate (length core) star.

Definition _mask_id_number (id_num : pystr) : pystr :=
  match re_search pat_id id_num with
  | None => re_sub pat_ascii_alnum tmpl_star id_num
  | Some m =>
    let core := m_group1 m in
    let masked :=
      if re_fullmatch seq_id18 core then re_sub [seq_id18] tmpl_id18 core
      else if re_fullmatch seq_id15 core then re_sub [seq_id15] tmpl_id15 core
      else generic_mask core in
    let prefix := take (m_start m) id_num in
    let suffix := drop (m_end m) id_num in
    prefix ++ masked ++ suffix
  end.

(** ** Records, sanitizing and formatting

    A record maps field keys to lists of values, as the [data] object of the
    response does. *)

(** [FIELD_LABELS], in insertion order. *)
Definition FIELD_LABELS : list (string * pystr) :=
  [ ("names", py "姓名");
    ("nicknames", py "昵称");
    ("phone_numbers", py "号码");
    ("id_numbers", py "身份证");
    ("wb_numbers", py "微博");
    ("passwords", py "密码");
    ("emails", py "邮箱");
    ("addresses", py "地址") ]%string.

(** [tuple(FIELD_LABELS.keys())] *)
Definition DEFAULT_FIELD_ORDER : list string := map fst FIELD_LABELS.

(** [FIELD_LABELS.get(key)] *)
Fixpoint dict_get {V} (d : list (string * V)) (key : string) : option V :=
  match d with
  | [] => None
  | (k, v) :: d' => if String.eqb k key then Some v else dict_get d' key
  end.

(** One pass of the loop of [_sanitize] over [key]. *)
Definition sanitize_step (desensitize : bool) (data : gmap string (list pystr))
    (sanitized : gmap string (list pystr)) (key : string) : gmap string (list pystr) :=
  match data !! key with
  | None | Some [] => sanitized
  | Some values =>
    if String.eqb key "phone_numbers" && desensitize
    then <[key := map _mask_phone values]> sanitized
    else if String.eqb key "id_numbers" && desensitize
    then <[key := map _mask_id_number values]> sanitized
    else <[key := values]> sanitized
  end.

Definition _sanitize (desensitize : bool) (data : gmap string (list pystr))
    : gmap string (list pystr) :=
  foldl (sanitize_step desensitize data) ∅ DEFAULT_FIELD_ORDER.

(** [sep.join(l)] *)
Fixpoint str_join (sep : pystr) (l : list pystr) : pystr :=
  match l with
  | [] => []
  | [x] => x
  | x :: l' => x ++ sep ++ str_join sep l'
  end.

(** The line [f"{label}：{' | '.join(map(str, values))}"]; [str] is the
    identity on the string values of a record. *)
Definition display_line (label : pystr) (values : list pystr) : pystr :=
  label ++ py "：" ++ str_join (py " | ") values.

(** One pass of the loop of [format_display] over [key]. *)
Definition display_step (data : gmap string (list pystr)) (lines : list pystr)
    (key : string) : list pystr :=
  match dict_get FIELD_LABELS key with
  | None | Some [] => lines
  | Some label =>
    match data !! key with
    | None | Some [] => lines
    | Some values => lines ++ [display_line label values]
    end
  end.

Definition format_display (data : gmap string (list pystr)) : list pystr :=
  foldl (display_step data) [] DEFAULT_FIELD_ORDER.

End Masking.

(** [n] characters of class [c] begin the string [s]. *)
Definition run_at (c : cls) (n : nat) (s : pystr) : bool :=
  (length (take n s) =? n) && forallb c (take n s).

(** The width of a sequence, and what a match of it consumes. *)
Definition seq_width (p : seqpat) : nat := sum_list (map p_count p).

(** Each character of the output is the character of the input at the same
    position, or a star put for a character of class [c]. *)
Definition starred_by (c : cls) (s out : pystr) : Prop :=
  Forall2 (λ x y, y = x ∨ (c x = true ∧ y = star)) s out.

(** The phone mask as the specification words it: the first maximal run of
    exactly eleven digits is masked, and when there is none every digit is
    starred. *)
Definition class_at (c : cls) (s : pystr) (i : nat) : bool :=
  match s !! i with
  | Some x => c x
  | None => false
  end.

Definition maximal_run_at (c : cls) (n : nat) (s : pystr) (j : nat) : bool :=
  run_at c n (drop j s)
  && negb (match j with 0 => false | S j' => class_at c s j' end)
  && negb (class_at c s (j + n)).

Definition spec_mask_phone (uni_Nd : pychar → bool) (number : pystr) : pystr :=
  match List.find (maximal_run_at (cls_d uni_Nd) 11 number) (seq 0 (S (length number))) with
  | Some j =>
    let run := take 11 (drop j number) in
    take j number ++ take 3 run ++ replicate 4 star ++ drop 7 run
      ++ drop (j + 11) number
  | None => map (λ x, if cls_d uni_Nd x then star else x) number
  end.

(** Tables with nothing above U+007F, to evaluate the transforms on ASCII
    text, where the tables are not consulted. *)
Definition no_table : pychar → bool := λ _, false.

(** An ID run begins the string [s]: seventeen digits and a digit or X/x,
    or fifteen digits. *)
Definition id18_at (uni_Nd : pychar → bool) (s : pystr) : bool :=
  run_at (cls_d uni_Nd) 17 s && run_at cls_digit_or_x 1 (drop 17 s).

Definition id15_at (uni_Nd : pychar → bool) (s : pystr) : bool :=
  run_at (cls_d uni_Nd) 15 s.

Definition id_run_at (uni_Nd : pychar → bool) (s : pystr) : bool :=
  id18_at uni_Nd s || id15_at uni_Nd s.

(** The character-wise fallback of the two masks: [re.sub] of a class by
    ["*"]. *)
Definition star_class (c : cls) (x : pychar) : pychar := if c x then star else x.

(** What the two loops do for one key, read off the record. *)
Definition display_entry (data : gmap string (list pystr)) (kv : string * pystr)
    : list pystr :=
  match data !! kv.1 with
  | Some (v :: vs) => [kv.2 ++ py "：" ++ str_join (py " | ") (v :: vs)]
  | _ => []
  end.

Definition field_mask (uni_Nd uni_alnum : pychar → bool) (desensitize : bool)
    (key : string) : pystr → pystr :=
  if desensitize then
    if String.eqb key "phone_numbers" then _mask_phone uni_Nd
    else if String.eqb key "id_numbers" then _mask_id_number uni_Nd uni_alnum
    else λ v, v
  else λ v, v.

Definition sanitize_entry (uni_Nd uni_alnum : pychar → bool) (desensitize : bool)
    (data : gmap string (list pystr)) (key : string) : option (list pystr) :=
  match data !! key with
  | Some (v :: vs) => Some (map (field_mask uni_Nd uni_alnum desensitize key) (v :: vs))
  | _ => None
  end.

(** The record of the examples that holds the unlabelled key alone. *)
Definition qq_only : gmap string (list pystr) := {["qq_numbers" := [py "10001"]]}.

(** ** The request and [fetch], on the values the response really holds

    [resp.json()] returns whatever JSON the service sent, so [data] is any
    Python value and the attribute and iteration protocols can raise.  The
    module [Untyped] embeds [_request], [_sanitize] and [fetch] on such
    values, with the exceptions written out. *)

Module Untyped.

(** The values [json.loads] builds.  A dict lists its items in insertion
    order, with distinct keys. *)
#[warnings="-register-all"]
Inductive pyval :=
| VNone
| VBool (b : bool)
| VInt (z : Z)
| VFloat (f : float)
| VStr (s : pystr)
| VList (l : list pyval)
| VDict (d : list (string * pyval)).

(** The exceptions of the module, all of them subclasses of [Exception]. *)
Inductive pyexn := ClientError | JSONDecodeError | AttributeError | TypeError.

Inductive outcome (A : Type) :=
| Returns (a : A)
| Raises (e : pyexn).
Arguments Returns {A} a.
Arguments Raises {A} e.

(** Sequencing: an exception raised by [c] goes through; [x ← c; k] is
    [c ≫= λ x, k]. *)
#[global] Instance outcome_bind : MBind outcome := λ A B k c,
  match c with
  | Returns a => k a
  | Raises e => Raises e
  end.

(** [try: c  except Exception: h] *)
Definition try_except {A} (c : outcome A) (h : pyexn → outcome A) : outcome A :=
  match c with
  | Returns a => Returns a
  | Raises e => h e
  end.

(** A list comprehension [[f(x) for x in l]]. *)
Fixpoint map_raising {A B} (f : A → outcome B) (l : list A) : outcome (list B) :=
  match l with
  | [] => Returns []
  | x :: l' => y ← f x; ys ← map_raising f l'; Returns (y :: ys)
  end.

(** Truth value testing, as [not v] does. *)
Definition truthy (v : pyval) : bool :=
  match v with
  | VNone => false
  | VBool b => b
  | VInt z => negb (z =? 0)%Z
  | VFloat f => negb (PrimFloat.eqb f 0%float)
  | VStr s => match s with [] => false | _ => true end
  | VList l => match l with [] => false | _ => true end
  | VDict d => match d with [] => false | _ => true end
  end.

(** [v.get(key)]: only a dict has the method. *)
Definition py_get (v : pyval) (key : string) : outcome pyval :=
  match v with
  | VDict d => Returns (default VNone (dict_get d key))
  | _ => Raises AttributeError
  end.

(** The items [for x in v] goes through. *)
Definition py_iter (v : pyval) : outcome (list pyval) :=
  match v with
  | VList l => Returns l
  | VStr s => Returns (map (λ c, VStr [c]) s)
  | VDict d => Returns (map (λ kv, VStr (py kv.1)) d)
  | _ => Raises TypeError
  end.

(** A mask called on a value: [re.search] takes a string. *)
Definition py_mask (mask : pystr → pystr) (v : pyval) : outcome pyval :=
  match v with
  | VStr s => Returns (VStr (mask s))
  | _ => Raises TypeError
  end.

(** [d[key] = v] *)
Fixpoint dict_set (d : list (string * pyval)) (key : string) (v : pyval)
    : list (string * pyval) :=
  match d with
  | [] => [(key, v)]
  | (k, w) :: d' => if String.eqb k key then (k, v) :: d' else (k, w) :: dict_set d' key v
  end.

Section Client.

Variable uni_Nd uni_alnum : pychar → bool.
(** [self.desensitize] *)
Variable desensitize : bool.

Definition sanitize_step (data : pyval) (acc : outcome (list (string * pyval)))
    (key : string) : outcome (list (string * pyval)) :=
  sanitized ← acc;
  values ← py_get data key;
  if negb (truthy values) then Returns sanitized
  else if String.eqb key "phone_numbers" && desensitize then
    vs ← py_iter values;
    masked ← map_raising (py_mask (_mask_phone uni_Nd)) vs;
    Returns (dict_set sanitized key (VList masked))
  else if String.eqb key "id_numbers" && desensitize then
    vs ← py_iter values;
    masked ← map_raising (py_mask (_mask_id_number uni_Nd uni_alnum)) vs;
    Returns (dict_set sanitized key (VList masked))
  else Returns (dict_set sanitized key values).

Definition _sanitize (data : pyval) : outcome pyval :=
  sanitized ← foldl (sanitize_step data) (Returns []) DEFAULT_FIELD_ORDER;
  Returns (VDict sanitized).

(** What the two awaited calls of one request do: [session.get] raises
    (timeout, reset, DNS failure) or answers with a status, and
    [resp.json(content_type=None)] raises on a body that is not JSON or
    returns the value parsed. *)
Inductive json_result := JsonRaises | JsonValue (body : pyval).
Inductive get_result := GetRaises | GetResponse (status : Z) (json : json_result).

(** [_request]; the log calls are left out.  Every exception of the model
    is an [Exception], which both handlers catch; cancellation, which is
    not, is no behaviour of the service. *)
Definition _request (remote : get_result) : outcome pyval :=
  try_except
    (match remote with
     | GetRaises => Raises ClientError
     | GetResponse status json =>
       if negb (status =? 200)%Z then Returns VNone
       else
         match (body ← match json with
                        | JsonRaises => Raises JSONDecodeError
                        | JsonValue body => Returns body
                        end;
                py_get body "data") with
         | Raises _ => Returns VNone
         | Returns data =>
           if negb (truthy data) then Returns VNone else Returns data
         end
     end)
    (λ _, Returns VNone).

Definition fetch (remote : get_result) : outcome pyval :=
  raw ← _request remote;
  if negb (truthy raw) then Returns VNone else _sanitize raw.

End Client.

(** The four failures of a request: a transport exception, a status other
    than 200, a body that does not parse, and a [data] field that is
    missing (also when the body is no dict) or falsy. *)
Definition data_field (body : pyval) : pyval :=
  match body with
  | VDict d => default VNone (dict_get d "data")
  | _ => VNone
  end.

Definition request_fails (remote : get_result) : bool :=
  match remote with
  | GetRaises => true
  | GetResponse status json =>
    negb (status =? 200)%Z
    || match json with
       | JsonRaises => true
       | JsonValue body => negb (truthy (data_field body))
       end
  end.

(** A value is a list of strings, and a record a dict of such lists. *)
Definition string_list (v : pyval) : Prop := ∃ l : list pystr, v = VList (map VStr l).
Definition record_shaped (v : pyval) : Prop :=
  ∃ d, v = VDict d ∧ Forall (λ kv, string_list kv.2) d.

(** The dict that holds the items of a record of lists of strings. *)
Definition of_values (vs : list pystr) : pyval := VList (map VStr vs).
Definition of_record (items : list (string * list pystr)) : pyval :=
  VDict (map (λ kv, (kv.1, of_values kv.2)) items).

(** The answer [{"data": {"phone_numbers": ["13812345678"]}}]. *)
Definition phone_response : get_result :=
  GetResponse 200 (JsonValue (VDict
    [("data", of_record [("phone_numbers", [py "13812345678"])])]))%string.

(** A dict that holds what a typed record holds. *)
Definition holds (sd : list (string * pyval)) (m : gmap string (list pystr)) : Prop :=
  ∀ k, dict_get sd k = of_values <$> m !! k.

(** A mapping of non-empty fields. *)
Definition nonempty_list (v : pyval) : Prop :=
  ∃ (x : pystr) (l : list pystr), v = VList (map VStr (x :: l)).
Definition nonempty_fields (v : pyval) : Prop :=
  ∃ d, v = VDict d ∧ Forall (λ kv, nonempty_list kv.2) d.

(** The [data] field of the answer to a request, [None] when there is no
    parsed body. *)
Definition response_data (remote : get_result) : pyval :=
  match remote with
  | GetResponse _ (JsonValue body) => data_field body
  | _ => VNone
  end.

(** The truthy item of a dict under a key, if any. *)
Definition truthy_item (d : list (string * pyval)) (key : string)
    : option (string * pyval) :=
  match dict_get d key with
  | Some v => if truthy v then Some (key, v) else None
  | None => None
  end.

(** The value under a key, [None] when the key is missing. *)
Definition field (d : list (string * pyval)) (key : string) : pyval :=
  default VNone (dict_get d key).

Definition is_str (v : pyval) : bool :=
  match v with
  | VStr _ => true
  | _ => false
  end.

(** A truthy value that the masking loop cannot go through: it cannot be
    iterated, or one of its items is no string. *)
Definition unmaskable (v : pyval) : bool :=
  truthy v
  && match py_iter v with
     | Returns vs => negb (forallb is_str vs)
     | Raises _ => true
     end.

(** An outcome that is not an exception other than [TypeError]. *)
Definition returns_or_type_error {A} (o : outcome A) : Prop :=
  match o with
  | Returns _ => True
  | Raises e => e = TypeError
  end.

End Untyped.

(** The record of the formatting example. *)
Definition display_example : gmap string (list pystr) :=
  <["names" := [py "张三"]]> (<["phone_numbers" := [py "138****5678"]]> ∅).

(** The keys of [keys] that the record holds with a list that is not empty. *)
Definition has_values (data : gmap string (list pystr)) (key : string) : bool :=
  match data !! key with
  | Some (_ :: _) => true
  | _ => false
  end.

(** The line of a labelled key of the raw record, as it is shown after
    sanitizing. *)
Definition sanitized_entry (uni_Nd uni_alnum : pychar → bool) (desensitize : bool)
    (data : gmap string (list pystr)) (kv : string * pystr) : list pystr :=
  match data !! kv.1 with
  | Some (v :: vs) =>
    [display_line kv.2 (map (field_mask uni_Nd uni_alnum desensitize kv.1) (v :: vs))]
  | _ => []
  end.

(** A record with several values under a key, an empty list and the
    unlabelled key. *)
Definition display_example_joined : gmap string (list pystr) :=
  <["emails" := [py "a@x.io"; py "b@y.io"; py "c@z.io"]]>
    (<["qq_numbers" := [py "10001"]]>
       (<["nicknames" := []]>
          (<["names" := [py "张三"; py "李四"]]> ∅))).

(** A raw record with two names, two phone values and the unlabelled key. *)
Definition sanitize_example : gmap string (list pystr) :=
  <["phone_numbers" := [py "13812345678"; py "tel 13912345678"]]>
    (<["qq_numbers" := [py "10001"]]>
       (<["names" := [py "张三"; py "李四"]]> ∅)).

(** * Properties *)

(** ** The matcher *)

Lemma match_rep_run c n s :
  match_rep c n s = if run_at c n s then Some (take n s, drop n s) else None.
Proof.
  revert s. induction n as [|n IH]; intros s; [reflexivity|].
  destruct s as [|x s]; [reflexivity|].
  cbn [match_rep]. rewrite IH. unfold run_at. cbn [take drop length forallb].
  destruct (c x); cbn [andb]; [|rewrite andb_false_r; reflexivity].
  change (S (length (take n s)) =? S n) with (length (take n s) =? n).
  destruct ((length (take n s) =? n) && forallb c (take n s)); reflexivity.
Qed.

Lemma run_at_app c n m r :
  length m = n → forallb c m = true → run_at c n (m ++ r) = true.
Proof.
  intros <- Hm. unfold run_at.
  rewrite take_app_length, Hm, Nat.eqb_refl. reflexivity.
Qed.

Lemma run_at_true c n s :
  run_at c n s = true →
  length (take n s) = n ∧ forallb c (take n s) = true ∧ n ≤ length s.
Proof.
  unfold run_at. intros [H1 H2]%andb_true_iff. apply Nat.eqb_eq in H1.
  repeat split; try assumption. rewrite length_take in H1. lia.
Qed.

Lemma run_at_short c n s : length s < n → run_at c n s = false.
Proof.
  intros H. unfold run_at. rewrite length_take.
  destruct (Nat.eqb_spec (n `min` length s) n); [lia | reflexivity].
Qed.

Lemma forallb_take (c : cls) k (l : pystr) :
  forallb c l = true → forallb c (take k l) = true.
Proof.
  revert k. induction l as [|x l IH]; intros [|k]; cbn; try reflexivity.
  intros [Hx Hl]%andb_true_iff. rewrite Hx. cbn. apply IH, Hl.
Qed.

Lemma forallb_drop (c : cls) k (l : pystr) :
  forallb c l = true → forallb c (drop k l) = true.
Proof.
  revert k. induction l as [|x l IH]; intros [|k]; cbn; try tauto.
  intros [Hx Hl]%andb_true_iff. apply IH, Hl.
Qed.

(** A longer run begins with a shorter one. *)
Lemma run_at_le c n k s : k ≤ n → run_at c n s = true → run_at c k s = true.
Proof.
  intros Hk (Hl & Hf & Hn)%run_at_true. unfold run_at.
  rewrite length_take, Nat.min_l by lia. rewrite Nat.eqb_refl. cbn.
  replace (take k s) with (take k (take n s))
    by (rewrite take_take; f_equal; lia).
  apply forallb_take, Hf.
Qed.

Lemma match_seq_nil s : match_seq [] s = Some ([], s).
Proof. reflexivity. Qed.

Lemma match_seq_cons pc p s :
  match_seq (pc :: p) s =
  if run_at (p_cls pc) (p_count pc) s then
    match match_seq p (drop (p_count pc) s) with
    | Some (segs, r) => Some ((p_group pc, take (p_count pc) s) :: segs, r)
    | None => None
    end
  else None.
Proof.
  cbn [match_seq]. rewrite match_rep_run.
  destruct (run_at (p_cls pc) (p_count pc) s); reflexivity.
Qed.

Lemma match_seq_text p s segs r :
  match_seq p s = Some (segs, r) →
  seg_text segs = take (seq_width p) s ∧ r = drop (seq_width p) s
  ∧ seq_width p ≤ length s.
Proof.
  revert s segs r. induction p as [|pc p IH]; intros s segs r.
  - cbn. intros [= <- <-]. rewrite drop_0. repeat split. lia.
  - rewrite match_seq_cons.
    destruct (run_at _ _ s) eqn:Hrun; [|discriminate].
    apply run_at_true in Hrun as (Hl & _ & Hn).
    destruct (match_seq p _) as [[segs' r']|] eqn:Hm; [|discriminate].
    intros [= <- <-]. apply IH in Hm as (Ht & Hr & Hw).
    rewrite length_drop in Hw.
    unfold seg_text in *. cbn [map concat snd seq_width sum_list sum_list_with].
    rewrite Ht, Hr, drop_drop, take_take_drop. repeat split.
    unfold seq_width, id in *. lia.
Qed.

Lemma match_here_text p s segs r :
  match_here p s = Some (segs, r) → s = seg_text segs ++ r.
Proof.
  induction p as [|a p IH]; [discriminate|]. cbn.
  destruct (match_seq a s) as [[segs' r']|] eqn:Ha; [|exact IH].
  intros [= <- <-]. apply match_seq_text in Ha as (-> & -> & _).
  symmetry. apply take_drop.
Qed.

Lemma search_from_eq p i s :
  search_from p i s =
  match match_here p s with
  | Some (segs, _) => Some (RMatch i segs)
  | None => match s with [] => None | _ :: s' => search_from p (S i) s' end
  end.
Proof. destruct s; reflexivity. Qed.

(** [re.search] returns the leftmost position at which the pattern matches. *)
Lemma search_from_found p i pre rest segs r :
  (∀ j, j < length pre → match_here p (drop j (pre ++ rest)) = None) →
  match_here p rest = Some (segs, r) →
  search_from p i (pre ++ rest) = Some (RMatch (i + length pre) segs).
Proof.
  revert i. induction pre as [|x pre IH]; intros i Hnone Hm.
  - rewrite search_from_eq. cbn. rewrite Hm. do 2 f_equal. lia.
  - rewrite search_from_eq.
    pose proof (Hnone 0 ltac:(cbn; lia)) as H0. rewrite drop_0 in H0.
    rewrite H0. cbn [app]. rewrite IH; [do 2 f_equal; cbn; lia| |exact Hm].
    intros j Hj. apply (Hnone (S j)). cbn. lia.
Qed.

Lemma search_from_Some p i s m :
  search_from p i s = Some m →
  ∃ k r, m_start m = i + k ∧ k ≤ length s
         ∧ match_here p (drop k s) = Some (m_segs m, r)
         ∧ ∀ j, j < k → match_here p (drop j s) = None.
Proof.
  revert i. induction s as [|x s IH]; intros i; rewrite search_from_eq.
  - destruct (match_here p []) as [[segs r]|] eqn:Hm; [|discriminate].
    intros [= <-]. exists 0, r. cbn. repeat split; try lia. exact Hm.
  - destruct (match_here p (x :: s)) as [[segs r]|] eqn:Hm.
    + intros [= <-]. exists 0, r. cbn. repeat split; try lia. exact Hm.
    + intros (k & r & Hs & Hk & Hmk & Hnone)%IH.
      exists (S k), r. cbn. repeat split; try lia; try exact Hmk.
      intros [|j] Hj; [exact Hm|]. apply Hnone. lia.
Qed.

Lemma search_from_None p i s :
  search_from p i s = None → ∀ j, match_here p (drop j s) = None.
Proof.
  revert i. induction s as [|x s IH]; intros i; rewrite search_from_eq.
  - destruct (match_here p []) as [[segs r]|] eqn:Hm; [discriminate|].
    intros _ j. rewrite drop_nil. exact Hm.
  - destruct (match_here p (x :: s)) as [[segs r]|] eqn:Hm; [discriminate|].
    intros H [|j]; [exact Hm|]. cbn. eapply IH, H.
Qed.

(** The text around a match: [number[:m.start(1)]], the match, and
    [number[m.end(1):]] make up the string. *)
Lemma re_search_split p s m :
  re_search p s = Some m →
  s = take (m_start m) s ++ m_group1 m ++ drop (m_end m) s
  ∧ (∃ r, match_here p (drop (m_start m) s) = Some (m_segs m, r))
  ∧ ∀ j, j < m_start m → match_here p (drop j s) = None.
Proof.
  intros (k & r & Hs & Hk & Hm & Hnone)%search_from_Some.
  cbn in Hs. rewrite Hs. repeat split; [|eauto|exact Hnone].
  pose proof (match_here_text _ _ _ _ Hm) as Ht.
  unfold m_end, m_group1. rewrite Hs.
  assert (r = drop (k + length (seg_text (m_segs m))) s) as <-.
  { rewrite <- drop_drop, Ht, drop_app_length. reflexivity. }
  rewrite <- Ht. symmetry. apply take_drop.
Qed.

Lemma sub_from_skip_all p t k s : length s ≤ k → sub_from p t k s = [].
Proof.
  revert k. induction s as [|x s IH]; intros k Hk; [reflexivity|].
  destruct k as [|k]; [cbn in Hk; lia|]. cbn. apply IH. cbn in Hk. lia.
Qed.

(** [re.sub] on a string the pattern matches as a whole. *)
Lemma re_sub_whole p t s segs :
  s ≠ [] → match_here p s = Some (segs, []) → re_sub p t s = expand t segs.
Proof.
  intros Hs Hm. pose proof (match_here_text _ _ _ _ Hm) as Ht.
  rewrite app_nil_r in Ht. destruct s as [|x s]; [congruence|].
  unfold re_sub. cbn [sub_from]. rewrite Hm, <- Ht. cbn [length].
  rewrite sub_from_skip_all by lia. apply app_nil_r.
Qed.

(** [re.sub] of a one-character class by ["*"]. *)
Lemma re_sub_class c s :
  re_sub [[Piece c 1 false]] [TLit [star]] s = map (λ x, if c x then star else x) s.
Proof.
  unfold re_sub. induction s as [|x s IH]; [reflexivity|].
  cbn [sub_from match_here match_seq match_rep p_cls p_count p_group map].
  destruct (c x); [|rewrite IH; reflexivity].
  cbn. rewrite IH. reflexivity.
Qed.

Lemma run_at_forallb c n l :
  n ≤ length l → forallb c l = true → run_at c n l = true.
Proof.
  intros Hn Hl. unfold run_at. rewrite length_take, Nat.min_l by lia.
  rewrite Nat.eqb_refl. cbn. apply forallb_take, Hl.
Qed.

(** [re.sub] of a pattern [(c1{n1})c2{n2}(c3{n3})] by a template
    [\1<lit>\2], on a string the pattern matches as a whole. *)
Lemma re_sub_three c1 c2 c3 n1 n2 n3 lit core :
  length core = n1 + n2 + n3 → core ≠ [] →
  run_at c1 n1 core = true →
  run_at c2 n2 (drop n1 core) = true →
  run_at c3 n3 (drop (n1 + n2) core) = true →
  re_sub [[Piece c1 n1 true; Piece c2 n2 false; Piece c3 n3 true]]
         [TGroup 1; TLit lit; TGroup 2] core
  = take n1 core ++ lit ++ drop (n1 + n2) core.
Proof.
  intros Hlen Hne H1 H2 H3.
  rewrite (re_sub_whole _ _ _
    [(true, take n1 core); (false, take n2 (drop n1 core));
     (true, take n3 (drop (n1 + n2) core))]); [|exact Hne|].
  - unfold expand, seg_groups. cbn. rewrite !app_nil_r.
    rewrite (take_ge (drop _ _)) by (rewrite length_drop; lia). reflexivity.
  - cbn [match_here]. rewrite !match_seq_cons, match_seq_nil.
    cbn [p_cls p_count p_group]. rewrite !drop_drop, H1, H2, H3.
    rewrite (drop_ge core (n1 + n2 + n3)) by lia. reflexivity.
Qed.

(** ** The phone mask *)

Section PhoneMask.

Variable nd : pychar → bool.

Lemma match_here_phone s :
  match_here (pat_phone nd) s =
  if run_at (cls_d nd) 11 s then Some ([(true, take 11 s)], drop 11 s) else None.
Proof.
  unfold pat_phone. cbn [match_here]. rewrite match_seq_cons, match_seq_nil.
  cbn [grp p_cls p_count p_group]. destruct (run_at _ _ _); reflexivity.
Qed.

(** The [re.sub] of [_mask_phone] on the eleven digits found. *)
Lemma mask_phone_digits core :
  length core = 11 → forallb (cls_d nd) core = true →
  re_sub (pat_phone_parts nd) tmpl_phone core
  = take 3 core ++ replicate 4 star ++ drop 7 core.
Proof.
  intros Hlen Hd. unfold pat_phone_parts, tmpl_phone, grp, rep.
  apply (re_sub_three _ _ _ 3 4 4); [exact Hlen|by destruct core| | |];
    apply run_at_forallb; rewrite ?length_drop; try lia;
    try apply forallb_drop; exact Hd.
Qed.

(** No eleven digits anywhere: every digit is starred. *)
Lemma mask_phone_none s :
  re_search (pat_phone nd) s = None →
  _mask_phone nd s = map (λ x, if cls_d nd x then star else x) s.
Proof.
  intros H. unfold _mask_phone. rewrite H. apply re_sub_class.
Qed.

(** Eleven digits somewhere: the leftmost such position [k] is masked. *)
Lemma mask_phone_some s m :
  re_search (pat_phone nd) s = Some m →
  run_at (cls_d nd) 11 (drop (m_start m) s) = true
  ∧ (∀ j, j < m_start m → run_at (cls_d nd) 11 (drop j s) = false)
  ∧ _mask_phone nd s =
      take (m_start m) s
      ++ (take 3 (drop (m_start m) s) ++ replicate 4 star
          ++ take 4 (drop (m_start m + 7) s))
      ++ drop (m_start m + 11) s.
Proof.
  intros Hs. unfold _mask_phone. rewrite Hs.
  apply re_search_split in Hs as (_ & [r Hm] & Hnone).
  rewrite match_here_phone in Hm.
  destruct (run_at _ 11 (drop (m_start m) s)) eqn:Hrun; [|discriminate].
  injection Hm as Hsegs _.
  apply run_at_true in Hrun as (Hl & Hf & _).
  assert (m_group1 m = take 11 (drop (m_start m) s)) as Hcore.
  { unfold m_group1, seg_text. rewrite <- Hsegs. cbn. apply app_nil_r. }
  split; [reflexivity|]. split.
  - intros j Hj. specialize (Hnone j Hj). rewrite match_here_phone in Hnone.
    destruct (run_at _ 11 (drop j s)); [discriminate|reflexivity].
  - cbn zeta. unfold m_end. rewrite Hcore, Hl, mask_phone_digits by assumption.
    rewrite take_take. change (3 `min` 11) with 3.
    rewrite <- (drop_drop s 7), (take_drop_commute _ 4 7). reflexivity.
Qed.

End PhoneMask.

Lemma starred_by_refl c s : starred_by c s s.
Proof.
  apply Forall2_same_length_lookup_2; [done|].
  intros i x y ? ?. left. congruence.
Qed.

Lemma starred_by_app c s1 o1 s2 o2 :
  starred_by c s1 o1 → starred_by c s2 o2 → starred_by c (s1 ++ s2) (o1 ++ o2).
Proof. apply Forall2_app. Qed.

Lemma starred_by_map c s : starred_by c s (map (λ x, if c x then star else x) s).
Proof.
  induction s as [|x s IH]; constructor; [|exact IH].
  destruct (c x) eqn:Hx; [right|left]; done.
Qed.

Lemma starred_by_replicate c s :
  forallb c s = true → starred_by c s (replicate (length s) star).
Proof.
  induction s as [|x s IH]; cbn; [constructor|].
  intros [Hx Hs]%andb_true_iff. constructor; [right; done|]. apply IH, Hs.
Qed.

Lemma starred_by_spec c s out :
  starred_by c s out →
  length out = length s
  ∧ (∀ i x, s !! i = Some x → c x = false → out !! i = Some x)
  ∧ (∀ i x y, s !! i = Some x → out !! i = Some y → y ≠ x → c x = true ∧ y = star).
Proof.
  intros H. split; [symmetry; eapply Forall2_length, H|]. split.
  - intros i x Hx Hc.
    destruct (Forall2_lookup_l _ _ _ _ _ H Hx) as (y & Hy & [->| [Hc' _]]);
      [exact Hy|congruence].
  - intros i x y Hx Hy Hne.
    destruct (Forall2_lookup_lr _ _ _ _ _ _ H Hx Hy) as [->|?]; [done|done].
Qed.

Lemma drop_split (l : pystr) a b : drop a l = take b (drop a l) ++ drop (a + b) l.
Proof. rewrite <- drop_drop. symmetry. apply take_drop. Qed.

Lemma mask_phone_starred nd s : starred_by (cls_d nd) s (_mask_phone nd s).
Proof.
  destruct (re_search (pat_phone nd) s) as [m|] eqn:Hs.
  - apply mask_phone_some in Hs as (Hrun & _ & ->).
    set (k := m_start m) in *. set (X := drop k s) in *.
    apply run_at_true in Hrun as (_ & Hd & Hlen).
    assert (s = take k s ++ (take 3 X ++ take 4 (drop 3 X)
                             ++ take 4 (drop (k + 7) s)) ++ drop (k + 11) s) as Hsplit.
    { rewrite <- (drop_drop s 7 k), <- (drop_drop s 11 k). fold X.
      rewrite <- (take_drop k s) at 1. fold X. f_equal.
      rewrite <- !app_assoc. rewrite <- (take_drop 3 X) at 1. f_equal.
      etransitivity; [apply (drop_split X 3 4)|]. f_equal.
      apply (drop_split X 7 4). }
    rewrite Hsplit at 1.
    repeat apply starred_by_app; try apply starred_by_refl.
    replace 4 with (length (take 4 (drop 3 X))) at 2
      by (rewrite length_take, length_drop; lia).
    apply starred_by_replicate.
    rewrite take_drop_commute. apply forallb_drop.
    replace (take (3 + 4) X) with (take 7 (take 11 X)) by (by rewrite take_take).
    apply forallb_take, Hd.
  - rewrite (mask_phone_none _ _ Hs). apply starred_by_map.
Qed.

(** C10: the phone mask keeps the length of its input and every character
    that is not a digit at its position; a character it changes is a digit
    and becomes ['*']. *)
Theorem mask_phone_length_and_non_digits (nd : pychar → bool) (number : pystr) :
  length (_mask_phone nd number) = length number
  ∧ (∀ i x, number !! i = Some x → cls_d nd x = false →
            _mask_phone nd number !! i = Some x)
  ∧ (∀ i x y, number !! i = Some x → _mask_phone nd number !! i = Some y →
              y ≠ x → cls_d nd x = true ∧ y = star).
Proof. apply starred_by_spec, mask_phone_starred. Qed.

Lemma mask_phone_length_and_non_digits_witness :
  _mask_phone no_table (py "tel 13812345678") !! 0 = Some 116%N.
Proof.
  apply (proj1 (proj2 (mask_phone_length_and_non_digits no_table (py "tel 13812345678")))
               0 116%N); reflexivity.
Defined.

(** A string that holds eleven digits in a row splits at the leftmost
    position where eleven digits begin. *)
Lemma leftmost_eleven_split (nd : pychar → bool) (s : pystr) j :
  run_at (cls_d nd) 11 (drop j s) = true →
  ∃ pre core suf,
    s = pre ++ core ++ suf ∧ length core = 11 ∧ forallb (cls_d nd) core = true
    ∧ ∀ i, i < length pre → run_at (cls_d nd) 11 (drop i s) = false.
Proof.
  intros Hj.
  destruct (re_search (pat_phone nd) s) as [m|] eqn:Hs.
  - pose proof (re_search_split _ _ _ Hs) as (Hsplit & _ & _).
    apply mask_phone_some in Hs as (Hrun & Hnone & _).
    apply run_at_true in Hrun as (Hl & Hd & Hn).
    exists (take (m_start m) s), (take 11 (drop (m_start m) s)),
           (drop (m_start m + 11) s).
    rewrite length_drop in Hn.
    split; [|split; [exact Hl|split; [exact Hd|]]].
    + rewrite <- (take_drop (m_start m) s) at 1. f_equal.
      rewrite <- drop_drop. symmetry. apply take_drop.
    + intros i Hi. apply Hnone. rewrite length_take in Hi. lia.
  - apply (search_from_None _ _ _) with (j := j) in Hs.
    rewrite match_here_phone, Hj in Hs. discriminate.
Qed.

(** C1 (amended): wherever eleven digits begin at a position of the input
    and at no position before it, the phone mask replaces them by their first
    three digits, four ['*'] and their last four digits, and keeps the text
    before and after them verbatim.  The eleven digits need not be a whole
    run: the digits that follow them are part of the text after. *)
Theorem mask_phone_leftmost_eleven (nd : pychar → bool) (pre core suf : pystr) :
  length core = 11 →
  forallb (cls_d nd) core = true →
  (∀ j, j < length pre → run_at (cls_d nd) 11 (drop j (pre ++ core ++ suf)) = false) →
  _mask_phone nd (pre ++ core ++ suf)
  = pre ++ take 3 core ++ replicate 4 star ++ drop 7 core ++ suf.
Proof.
  intros Hlen Hd Hnone.
  assert (re_search (pat_phone nd) (pre ++ core ++ suf)
          = Some (RMatch (length pre) [(true, core)])) as Hs.
  { unfold re_search.
    rewrite (search_from_found _ 0 pre (core ++ suf) [(true, core)] suf).
    - reflexivity.
    - intros j Hj. rewrite match_here_phone, (Hnone j Hj). reflexivity.
    - rewrite match_here_phone, run_at_app by assumption.
      rewrite <- Hlen, take_app_length, drop_app_length. reflexivity. }
  apply mask_phone_some in Hs as (_ & _ & ->). cbn [m_start].
  rewrite take_app_length. f_equal.
  rewrite <- (drop_drop _ 7), <- (drop_drop _ 11), !drop_app_length.
  rewrite take_app_le, (drop_app_le core), <- Hlen, take_app_length', drop_app_length
    by (rewrite ?length_drop; lia).
  rewrite <- !app_assoc. reflexivity.
Qed.

Lemma mask_phone_leftmost_eleven_witness :
  _mask_phone no_table (py "tel 123456789012 ext 7") = py "tel 123****89012 ext 7".
Proof.
  apply (mask_phone_leftmost_eleven no_table (py "tel ") (py "12345678901") (py "2 ext 7")).
  - reflexivity.
  - reflexivity.
  - intros j Hj. do 4 (destruct j as [|j]; [reflexivity|]). vm_compute in Hj. lia.
Defined.

(** C1 as stated fails on a run of twelve digits: it holds no maximal run of
    exactly eleven digits, so by the claim nothing is matched and every digit
    is starred, whereas [_mask_phone] masks its first eleven digits. *)
Lemma mask_phone_twelve_digits :
  (∀ nd, spec_mask_phone nd (py "123456789012") = py "************")
  ∧ (∀ nd, _mask_phone nd (py "123456789012") = py "123****89012")
  ∧ (∀ nd, _mask_phone nd (py "123456789012") ≠ spec_mask_phone nd (py "123456789012")).
Proof. repeat split; intros nd; try reflexivity. discriminate. Qed.

(** ** The ID mask *)

Lemma in_range_spec lo hi c : in_range lo hi c = true ↔ (lo ≤ c ∧ c ≤ hi)%N.
Proof. unfold in_range. rewrite andb_true_iff, !N.leb_le. reflexivity. Qed.

Lemma star_not_digit nd : cls_d nd star = false.
Proof. reflexivity. Qed.

Lemma star_not_alnum : cls_ascii_alnum star = false.
Proof. reflexivity. Qed.

Lemma cls_d_w nd al x : cls_d nd x = true → cls_w nd al x = true.
Proof.
  unfold cls_d, cls_w, cls_ascii_alnum. destruct (x <? 128)%N.
  - intros ->. reflexivity.
  - intros ->. reflexivity.
Qed.

Lemma cls_digit_or_x_w nd al x : cls_digit_or_x x = true → cls_w nd al x = true.
Proof.
  unfold cls_digit_or_x, cls_w, cls_ascii_alnum, ascii_digit, ascii_upper, ascii_lower.
  rewrite !orb_true_iff, in_range_spec, !N.eqb_eq. intros H.
  destruct (N.ltb_spec x 128) as [_|Hge]; [|lia].
  destruct H as [[H| ->]| ->]; [|reflexivity|reflexivity].
  apply in_range_spec in H. rewrite H. reflexivity.
Qed.

Lemma forallb_impl (c1 c2 : cls) (l : pystr) :
  (∀ x, c1 x = true → c2 x = true) → forallb c1 l = true → forallb c2 l = true.
Proof.
  intros H. rewrite !forallb_forall. intros Hl x Hx. apply H, Hl, Hx.
Qed.

Section IdMask.

Variable nd al : pychar → bool.

Lemma match_here_id s :
  match_here (pat_id nd) s =
  if id18_at nd s then Some ([(false, take 17 s); (false, take 1 (drop 17 s))], drop 18 s)
  else if id15_at nd s then Some ([(false, take 15 s)], drop 15 s)
  else None.
Proof.
  unfold pat_id, id18_at, id15_at. cbn [match_here].
  rewrite !match_seq_cons, !match_seq_nil. cbn [rep p_cls p_count p_group].
  destruct (run_at _ 17 s); cbn [andb].
  - destruct (run_at _ 1 _); [rewrite drop_drop; reflexivity|].
    destruct (run_at _ 15 s); reflexivity.
  - destruct (run_at _ 15 s); reflexivity.
Qed.

Lemma id_run_at_match s : id_run_at nd s = false ↔ match_here (pat_id nd) s = None.
Proof.
  rewrite match_here_id. unfold id_run_at.
  destruct (id18_at nd s), (id15_at nd s); cbn; split; congruence.
Qed.

(** The eighteen-character branch on a core of that form. *)
Lemma mask_id_core18 core :
  length core = 18 →
  forallb (cls_d nd) (take 17 core) = true →
  forallb cls_digit_or_x (drop 17 core) = true →
  re_fullmatch (seq_id18 nd al) core = true
  ∧ re_sub [seq_id18 nd al] tmpl_id18 core
    = take 6 core ++ replicate 8 star ++ drop 14 core.
Proof.
  intros Hlen Hd Hx.
  assert (run_at (cls_d nd) 6 core = true) as H1.
  { apply (run_at_le _ 17); [lia|]. unfold run_at.
    rewrite length_take, Hd, Nat.min_l, Nat.eqb_refl by lia. reflexivity. }
  assert (run_at (cls_d nd) 8 (drop 6 core) = true) as H2.
  { unfold run_at. rewrite length_take, length_drop, Nat.min_l, Nat.eqb_refl by lia.
    rewrite take_drop_commute. cbn [andb]. apply forallb_drop.
    replace (take (6 + 8) core) with (take 14 (take 17 core)) by (by rewrite take_take).
    apply forallb_take, Hd. }
  assert (run_at (cls_w nd al) 4 (drop 14 core) = true) as H3.
  { apply run_at_forallb; [rewrite length_drop; lia|].
    rewrite <- (take_drop 17 core) at 1.
    rewrite drop_app_le by (rewrite length_take; lia).
    rewrite forallb_app. apply andb_true_iff. split.
    - apply forallb_drop. eapply forallb_impl, Hd. apply cls_d_w.
    - eapply forallb_impl, Hx. apply cls_digit_or_x_w. }
  split.
  - unfold re_fullmatch, seq_id18. rewrite !match_seq_cons, match_seq_nil.
    cbn [grp rep p_cls p_count p_group]. rewrite !drop_drop. cbn [Nat.add].
    rewrite H1, H2, H3, (drop_ge core 18) by lia. reflexivity.
  - unfold seq_id18, tmpl_id18, grp, rep.
    apply (re_sub_three _ _ _ 6 8 4); [exact Hlen|by destruct core|assumption..].
Qed.

(** The branches on a core of fifteen digits: the eighteen-character
    pattern does not fit, [\d{6}\d{5}\w{4}] does, and its second group
    holds the last four digits. *)
Lemma mask_id_core15 core :
  length core = 15 →
  forallb (cls_d nd) core = true →
  re_fullmatch (seq_id18 nd al) core = false
  ∧ re_fullmatch (seq_id15 nd al) core = true
  ∧ re_sub [seq_id15 nd al] tmpl_id15 core
    = take 6 core ++ replicate 6 star ++ drop 11 core.
Proof.
  intros Hlen Hd.
  assert (run_at (cls_d nd) 6 core = true) as H1
    by (apply run_at_forallb; [lia|exact Hd]).
  assert (run_at (cls_d nd) 5 (drop 6 core) = true) as H2
    by (apply run_at_forallb; [rewrite length_drop; lia|apply forallb_drop, Hd]).
  assert (run_at (cls_w nd al) 4 (drop 11 core) = true) as H3.
  { apply run_at_forallb; [rewrite length_drop; lia|].
    apply forallb_drop. eapply forallb_impl, Hd. apply cls_d_w. }
  split; [|split].
  - unfold re_fullmatch.
    destruct (match_seq (seq_id18 nd al) core) as [[segs r]|] eqn:Hm; [|reflexivity].
    apply match_seq_text in Hm as (_ & _ & Hw). cbn in Hw. lia.
  - unfold re_fullmatch, seq_id15. rewrite !match_seq_cons, match_seq_nil.
    cbn [grp rep p_cls p_count p_group]. rewrite !drop_drop. cbn [Nat.add].
    rewrite H1, H2, H3, (drop_ge core 15) by lia. reflexivity.
  - unfold seq_id15, tmpl_id15, grp, rep.
    apply (re_sub_three _ _ _ 6 5 4); [exact Hlen|by destruct core|assumption..].
Qed.

(** No ID run anywhere: every ASCII letter and digit is starred. *)
Lemma mask_id_none s :
  re_search (pat_id nd) s = None →
  _mask_id_number nd al s = map (λ x, if cls_ascii_alnum x then star else x) s.
Proof.
  intros H. unfold _mask_id_number. rewrite H. apply re_sub_class.
Qed.

Lemma id18_at_app core suf :
  length core = 18 →
  forallb (cls_d nd) (take 17 core) = true →
  forallb cls_digit_or_x (drop 17 core) = true →
  id18_at nd (core ++ suf) = true
  ∧ take 17 (core ++ suf) = take 17 core
  ∧ take 1 (drop 17 (core ++ suf)) = drop 17 core
  ∧ drop 18 (core ++ suf) = suf.
Proof.
  intros Hlen Hd Hx.
  assert (take 17 (core ++ suf) = take 17 core) as E1 by (apply take_app_le; lia).
  assert (take 1 (drop 17 (core ++ suf)) = drop 17 core) as E2.
  { rewrite drop_app_le by lia. apply take_app_length'. rewrite length_drop. lia. }
  repeat split; try assumption.
  - unfold id18_at, run_at. rewrite E1, E2, Hd, Hx.
    rewrite length_take, length_drop, Hlen. reflexivity.
  - apply drop_app_length'. lia.
Qed.

(** The search finds the run [core] that begins where no run begins before. *)
Lemma re_search_id18 pre core suf :
  length core = 18 →
  forallb (cls_d nd) (take 17 core) = true →
  forallb cls_digit_or_x (drop 17 core) = true →
  (∀ j, j < length pre → id_run_at nd (drop j (pre ++ core ++ suf)) = false) →
  ∃ m, re_search (pat_id nd) (pre ++ core ++ suf) = Some m
       ∧ m_start m = length pre ∧ m_group1 m = core.
Proof.
  intros Hlen Hd Hx Hnone.
  destruct (id18_at_app core suf Hlen Hd Hx) as (H18 & E1 & E2 & E3).
  eexists. split; [|split].
  - unfold re_search. eapply search_from_found.
    + intros j Hj. apply id_run_at_match, Hnone, Hj.
    + rewrite match_here_id, H18. reflexivity.
  - reflexivity.
  - unfold m_group1, seg_text. cbn. rewrite E1, E2, app_nil_r. apply take_drop.
Qed.

Lemma re_search_id15 pre core suf :
  length core = 15 →
  forallb (cls_d nd) core = true →
  id18_at nd (core ++ suf) = false →
  (∀ j, j < length pre → id_run_at nd (drop j (pre ++ core ++ suf)) = false) →
  ∃ m, re_search (pat_id nd) (pre ++ core ++ suf) = Some m
       ∧ m_start m = length pre ∧ m_group1 m = core.
Proof.
  intros Hlen Hd H18 Hnone.
  assert (id15_at nd (core ++ suf) = true) as H15 by (by apply run_at_app).
  eexists. split; [|split].
  - unfold re_search. eapply search_from_found.
    + intros j Hj. apply id_run_at_match, Hnone, Hj.
    + rewrite match_here_id, H18, H15. reflexivity.
  - reflexivity.
  - unfold m_group1, seg_text. cbn. rewrite app_nil_r. apply take_app_length'. lia.
Qed.

(** The text put back around the masked core. *)
Lemma mask_id_reassemble pre core suf m :
  re_search (pat_id nd) (pre ++ core ++ suf) = Some m →
  m_start m = length pre → m_group1 m = core →
  ∃ masked,
    _mask_id_number nd al (pre ++ core ++ suf) = pre ++ masked ++ suf
    ∧ masked =
        if re_fullmatch (seq_id18 nd al) core
        then re_sub [seq_id18 nd al] tmpl_id18 core
        else if re_fullmatch (seq_id15 nd al) core
        then re_sub [seq_id15 nd al] tmpl_id15 core
        else generic_mask core.
Proof.
  intros Hs Hst Hcore. unfold _mask_id_number. rewrite Hs. cbn zeta.
  unfold m_end. rewrite Hcore, Hst, take_app_length.
  rewrite <- drop_drop, !drop_app_length. eexists. split; reflexivity.
Qed.

(** A run of fifteen digits found by the search comes out one character
    longer: six digits, six stars, and the last four digits. *)
Lemma mask_id_fifteen pre core suf :
  length core = 15 →
  forallb (cls_d nd) core = true →
  id18_at nd (core ++ suf) = false →
  (∀ j, j < length pre → id_run_at nd (drop j (pre ++ core ++ suf)) = false) →
  _mask_id_number nd al (pre ++ core ++ suf)
  = pre ++ (take 6 core ++ replicate 6 star ++ drop 11 core) ++ suf.
Proof.
  intros Hlen Hd H18 Hnone.
  destruct (re_search_id15 pre core suf Hlen Hd H18 Hnone) as (m & Hs & Hst & Hc).
  destruct (mask_id_reassemble _ _ _ _ Hs Hst Hc) as (masked & -> & ->).
  destruct (mask_id_core15 core Hlen Hd) as (-> & -> & ->). reflexivity.
Qed.

(** The last branch of [_mask_id_number] is dead: whatever the search
    finds fits one of the two patterns tried before it. *)
Lemma generic_mask_unreachable s m :
  re_search (pat_id nd) s = Some m →
  re_fullmatch (seq_id18 nd al) (m_group1 m)
  || re_fullmatch (seq_id15 nd al) (m_group1 m) = true.
Proof.
  intros (_ & [r Hm] & _)%re_search_split. rewrite match_here_id in Hm.
  set (X := drop (m_start m) s) in *. unfold m_group1, seg_text.
  destruct (id18_at nd X) eqn:H18.
  - injection Hm as <- _. cbn. rewrite app_nil_r.
    apply andb_true_iff in H18 as [(L1 & D1 & _)%run_at_true (L2 & D2 & _)%run_at_true].
    destruct (mask_id_core18 (take 17 X ++ take 1 (drop 17 X))) as [-> _].
    + rewrite length_app, L1, L2. reflexivity.
    + rewrite take_app_length' by (symmetry; exact L1). exact D1.
    + rewrite drop_app_length' by (symmetry; exact L1). exact D2.
    + reflexivity.
  - destruct (id15_at nd X) eqn:H15; [|discriminate].
    injection Hm as <- _. cbn. rewrite app_nil_r.
    apply run_at_true in H15 as (L & D & _).
    destruct (mask_id_core15 (take 15 X)) as (_ & -> & _); auto using orb_true_r.
Qed.

End IdMask.

Lemma search_from_none_intro p i s :
  (∀ j, match_here p (drop j s) = None) → search_from p i s = None.
Proof.
  revert i. induction s as [|x s IH]; intros i H; rewrite search_from_eq.
  - pose proof (H 0) as H0. rewrite drop_0 in H0. rewrite H0. reflexivity.
  - pose proof (H 0) as H0. rewrite drop_0 in H0. rewrite H0.
    apply IH. intros j. apply (H (S j)).
Qed.



(** C3: an eighteen-character run (seventeen digits and a digit or X/x)
    that the search finds is replaced by its first six digits, eight ['*']
    and its last four characters, between the text before and after it; in
    particular ["110101199003071234"] becomes ["110101********1234"]. *)
Theorem mask_id_eighteen (nd al : pychar → bool) :
  (∀ pre core suf : pystr,
      length core = 18 →
      forallb (cls_d nd) (take 17 core) = true →
      forallb cls_digit_or_x (drop 17 core) = true →
      (∀ j, j < length pre → id_run_at nd (drop j (pre ++ core ++ suf)) = false) →
      _mask_id_number nd al (pre ++ core ++ suf)
      = pre ++ (take 6 core ++ replicate 8 star ++ drop 14 core) ++ suf)
  ∧ _mask_id_number nd al (py "110101199003071234") = py "110101********1234".
Proof.
  split; [|reflexivity].
  intros pre core suf Hlen Hd Hx Hnone.
  destruct (re_search_id18 nd pre core suf Hlen Hd Hx Hnone) as (m & Hs & Hst & Hc).
  destruct (mask_id_reassemble nd al _ _ _ _ Hs Hst Hc) as (masked & -> & ->).
  destruct (mask_id_core18 nd al core Hlen Hd Hx) as (-> & ->). reflexivity.
Qed.

Lemma mask_id_eighteen_witness :
  _mask_id_number no_table no_table (py "ID 11010119900307123X (old)")
  = py "ID 110101********123X (old)".
Proof.
  apply (proj1 (mask_id_eighteen no_table no_table)
               (py "ID ") (py "11010119900307123X") (py " (old)")).
  - reflexivity.
  - reflexivity.
  - reflexivity.
  - intros j Hj. do 3 (destruct j as [|j]; [reflexivity|]). vm_compute in Hj. lia.
Defined.

(** C2: on ["110101900307123"] the code keeps the last four digits, not the
    last three: the result is ["110101******7123"], sixteen characters for
    fifteen, and not the ["110101******123"] of the docstring. *)
Theorem mask_id_fifteen_example (nd al : pychar → bool) :
  _mask_id_number nd al (py "110101900307123") = py "110101******7123"
  ∧ length (_mask_id_number nd al (py "110101900307123")) = 16
  ∧ _mask_id_number nd al (py "110101900307123") ≠ py "110101******123".
Proof. repeat split. discriminate. Qed.




(** ** Masking again *)

Lemma star_class_map (c : cls) (s : pystr) : map (λ x, if c x then star else x) s = map (star_class c) s.
Proof. reflexivity. Qed.

Lemma star_class_free (c : cls) (s : pystr) :
  c star = false → forallb (λ x, negb (c x)) (map (star_class c) s) = true.
Proof.
  intros Hs. induction s as [|x s IH]; [reflexivity|]. cbn. rewrite IH, andb_true_r.
  unfold star_class. destruct (c x) eqn:Hx; [rewrite Hs|rewrite Hx]; reflexivity.
Qed.




Lemma re_search_phone_none nd s :
  (∀ j, run_at (cls_d nd) 11 (drop j s) = false) → re_search (pat_phone nd) s = None.
Proof.
  intros H. apply search_from_none_intro. intros j.
  rewrite match_here_phone, H. reflexivity.
Qed.

Lemma re_search_id_none nd s :
  (∀ j, id_run_at nd (drop j s) = false) → re_search (pat_id nd) s = None.
Proof.
  intros H. apply search_from_none_intro. intros j. apply id_run_at_match, H.
Qed.




(** ** Formatting *)

Lemma foldl_display_step data keys lines :
  foldl (display_step data) lines keys
  = lines ++ concat (map (λ key, display_step data [] key) keys).
Proof.
  revert lines. induction keys as [|key keys IH]; intros lines; cbn [foldl map concat].
  - symmetry. apply app_nil_r.
  - rewrite IH, app_assoc. f_equal.
    unfold display_step. destruct (dict_get _ key) as [[|c l]|]; try (symmetry; apply app_nil_r).
    destruct (data !! key) as [[|v vs]|]; try (symmetry; apply app_nil_r). reflexivity.
Qed.

(** Every key of the field order has its label, and no label is empty. *)
Lemma field_labels_get :
  Forall (λ kv, ∃ c l, dict_get FIELD_LABELS kv.1 = Some (c :: l) ∧ kv.2 = c :: l)
         FIELD_LABELS.
Proof. repeat constructor; vm_compute; eauto. Qed.

Lemma format_display_concat (data : gmap string (list pystr)) :
  format_display data = concat (map (display_entry data) FIELD_LABELS).
Proof.
  unfold format_display. rewrite foldl_display_step. cbn [app].
  unfold DEFAULT_FIELD_ORDER. rewrite map_map. f_equal.
  apply map_ext_in. intros kv Hin. apply list_elem_of_In in Hin.
  pose proof (proj1 (Forall_forall _ _) field_labels_get kv Hin) as (c & l & Hget & Hl).
  unfold display_step, display_entry. rewrite Hget, Hl.
  destruct (data !! kv.1) as [[|v vs]|]; reflexivity.
Qed.

(** [sep.join] puts the separator before each value but the first. *)
Lemma str_join_concat (sep v : pystr) (vs : list pystr) :
  str_join sep (v :: vs) = v ++ concat (map (λ y, sep ++ y) vs).
Proof.
  revert v. induction vs as [|w vs IH]; intros v.
  - cbn. symmetry. apply app_nil_r.
  - change (str_join sep (v :: w :: vs)) with (v ++ sep ++ str_join sep (w :: vs)).
    rewrite IH. cbn [map concat]. rewrite <- !app_assoc. reflexivity.
Qed.

(** C7: [format_display] yields, for the labelled keys in their order, one
    line for each key the record holds with a non-empty list, and nothing
    else; the line is the label, the fullwidth colon and the first value,
    then [" | "] and a value for each value that follows.  On the record of
    the example it yields the two lines of the example, and on a record with
    several values under a key the values joined with [" | "]. *)
Theorem format_display_lines (data : gmap string (list pystr)) :
  format_display data
  = concat (map (λ kv : string * pystr,
                   match data !! kv.1 with
                   | Some (v :: vs) =>
                     [kv.2 ++ py "：" ++ v ++ concat (map (λ y, py " | " ++ y) vs)]
                   | _ => []
                   end) FIELD_LABELS)
  ∧ format_display display_example = [py "姓名：张三"; py "号码：138****5678"]
  ∧ format_display display_example_joined
    = [py "姓名：张三 | 李四"; py "邮箱：a@x.io | b@y.io | c@z.io"].
Proof.
  split; [|split; reflexivity].
  rewrite format_display_concat. f_equal. apply map_ext. intros kv.
  unfold display_entry. destruct (data !! kv.1) as [[|v vs]|]; try reflexivity.
  rewrite str_join_concat. reflexivity.
Qed.

(** ** Sanitizing *)

Section Sanitize.

Variable nd al : pychar → bool.
Variable desensitize : bool.
Variable data : gmap string (list pystr).

Lemma sanitize_step_lookup (acc : gmap string (list pystr)) key k :
  sanitize_step nd al desensitize data acc key !! k =
  if decide (key = k) then
    match sanitize_entry nd al desensitize data key with
    | Some x => Some x
    | None => acc !! k
    end
  else acc !! k.
Proof.
  unfold sanitize_step, sanitize_entry, field_mask.
  destruct (data !! key) as [[|v vs]|]; try (case_decide; reflexivity).
  destruct desensitize; rewrite ?andb_true_r, ?andb_false_r.
  - destruct (String.eqb key "phone_numbers"); [|destruct (String.eqb key "id_numbers")];
      case_decide; subst; rewrite ?lookup_insert_eq, ?lookup_insert_ne, ?map_id by done;
      reflexivity.
  - case_decide; subst; rewrite ?lookup_insert_eq, ?lookup_insert_ne, ?map_id by done;
      reflexivity.
Qed.

Lemma foldl_sanitize_lookup keys (acc : gmap string (list pystr)) k :
  foldl (sanitize_step nd al desensitize data) acc keys !! k =
  if decide (k ∈ keys) then
    match sanitize_entry nd al desensitize data k with
    | Some x => Some x
    | None => acc !! k
    end
  else acc !! k.
Proof.
  revert acc. induction keys as [|key keys IH]; intros acc; cbn [foldl].
  - case_decide as H; [inversion H|reflexivity].
  - rewrite IH, sanitize_step_lookup.
    destruct (decide (key = k)) as [->|Hne].
    + rewrite (decide_True (P := k ∈ k :: keys)) by left.
      destruct (sanitize_entry _ _ _ _ k); destruct (decide (k ∈ keys)); reflexivity.
    + destruct (decide (k ∈ keys)) as [Hin|Hnin].
      * rewrite decide_True by (right; exact Hin). reflexivity.
      * rewrite decide_False; [reflexivity|]. intros Hin.
        apply elem_of_cons in Hin as [->|Hin]; [exact (Hne eq_refl)|exact (Hnin Hin)].
Qed.

(** What [_sanitize] holds for a key. *)
Lemma sanitize_lookup k :
  _sanitize nd al desensitize data !! k =
  if decide (k ∈ DEFAULT_FIELD_ORDER) then sanitize_entry nd al desensitize data k
  else None.
Proof.
  unfold _sanitize. rewrite foldl_sanitize_lookup, lookup_empty.
  case_decide; [|reflexivity]. destruct (sanitize_entry _ _ _ _ k); reflexivity.
Qed.

End Sanitize.

Lemma qq_not_in_order : "qq_numbers" ∉ DEFAULT_FIELD_ORDER.
Proof.
  unfold DEFAULT_FIELD_ORDER, FIELD_LABELS. cbn.
  rewrite !elem_of_cons, elem_of_nil. intros H.
  decompose [or] H; (discriminate || contradiction).
Qed.

Lemma sanitize_qq_only_empty nd al d : _sanitize nd al d qq_only = ∅.
Proof.
  apply map_empty. intros k. rewrite sanitize_lookup.
  case_decide as Hin; [|reflexivity]. unfold sanitize_entry, qq_only.
  rewrite lookup_singleton_ne; [reflexivity|]. intros <-.
  exact (qq_not_in_order Hin).
Qed.

Lemma field_mask_other nd al desensitize k (v : pystr) :
  k ≠ "phone_numbers" → k ≠ "id_numbers" → field_mask nd al desensitize k v = v.
Proof.
  intros H1 H2. unfold field_mask. destruct desensitize; [|reflexivity].
  destruct (String.eqb_spec k "phone_numbers"); [done|].
  destruct (String.eqb_spec k "id_numbers"); [done|reflexivity].
Qed.

Lemma sanitize_entry_Some nd al desensitize data k vs' :
  sanitize_entry nd al desensitize data k = Some vs' ↔
  ∃ vs, data !! k = Some vs ∧ vs ≠ [] ∧ vs' = map (field_mask nd al desensitize k) vs.
Proof.
  unfold sanitize_entry. split.
  - destruct (data !! k) as [[|v vs]|]; try discriminate.
    intros [= <-]. exists (v :: vs). done.
  - intros (vs & -> & Hne & ->). destruct vs; [done|reflexivity].
Qed.

(** C4 (amended): [_sanitize] only filters and substitutes value by value.
    A key it keeps is a key of the field order whose list in the raw record
    is not empty, and its list has the same number of values in the same
    order, each the raw value or its mask; for a key other than
    [phone_numbers] and [id_numbers] the list is the raw list.  With the
    flag off the result is the raw record without its empty lists and
    without the keys that are not in the field order. *)
Theorem sanitize_filters_and_substitutes (nd al : pychar → bool) (desensitize : bool)
    (data : gmap string (list pystr)) :
  (∀ k vs', _sanitize nd al desensitize data !! k = Some vs' →
     k ∈ DEFAULT_FIELD_ORDER
     ∧ ∃ vs, data !! k = Some vs ∧ vs ≠ []
             ∧ length vs' = length vs
             ∧ vs' = map (field_mask nd al desensitize k) vs
             ∧ (k ≠ "phone_numbers" → k ≠ "id_numbers" → vs' = vs))
  ∧ (∀ k vs, k ∈ DEFAULT_FIELD_ORDER → data !! k = Some vs → vs ≠ [] →
       _sanitize nd al desensitize data !! k
       = Some (map (field_mask nd al desensitize k) vs))
  ∧ (desensitize = false →
       _sanitize nd al desensitize data
       = filter (λ kv, kv.1 ∈ DEFAULT_FIELD_ORDER ∧ kv.2 ≠ []) data).
Proof.
  split; [|split].
  - intros k vs'. rewrite sanitize_lookup. case_decide as Hin; [|discriminate].
    intros (vs & Hk & Hne & ->)%sanitize_entry_Some. split; [exact Hin|].
    exists vs. repeat split; try assumption.
    + apply length_map.
    + intros H1 H2. rewrite <- (map_id vs) at 2. apply map_ext.
      intros v. apply field_mask_other; assumption.
  - intros k vs Hin Hk Hne. rewrite sanitize_lookup, decide_True by exact Hin.
    apply sanitize_entry_Some. eauto.
  - intros ->. apply map_eq. intros k. apply option_eq. intros vs'.
    rewrite map_lookup_filter_Some, sanitize_lookup. cbn [fst snd].
    case_decide as Hin.
    + rewrite sanitize_entry_Some. split.
      * intros (vs & Hk & Hne & ->). rewrite map_id. done.
      * intros (Hk & _ & Hne). exists vs'. rewrite map_id. done.
    + split; [discriminate|]. intros (_ & Hin' & _). done.
Qed.

Lemma sanitize_filters_and_substitutes_witness :
  _sanitize no_table no_table false
    (<["names" := [py "Li"]]> (<["emails" := []]> qq_only))
  = filter (λ kv, kv.1 ∈ DEFAULT_FIELD_ORDER ∧ kv.2 ≠ [])
      (<["names" := [py "Li"]]> (<["emails" := []]> qq_only)).
Proof.
  apply (proj2 (proj2 (sanitize_filters_and_substitutes no_table no_table false
                         (<["names" := [py "Li"]]> (<["emails" := []]> qq_only))))).
  reflexivity.
Defined.

(** C4 as stated fails on a record that holds the unlabelled key: with the
    flag off nothing of it is empty or absent, and [_sanitize] drops it. *)
Lemma sanitize_drops_unlabelled_key :
  (∀ nd al, _sanitize nd al false qq_only = ∅)
  ∧ filter (λ kv, kv.2 ≠ []) qq_only = qq_only
  ∧ qq_only !! "qq_numbers" = Some [py "10001"]
  ∧ (∀ nd al, _sanitize nd al false qq_only ≠ filter (λ kv, kv.2 ≠ []) qq_only).
Proof.
  assert (∀ nd al, _sanitize nd al false qq_only = ∅) as H0
    by (intros; apply sanitize_qq_only_empty).
  assert (filter (λ kv, kv.2 ≠ []) qq_only = qq_only) as H1.
  { apply map_filter_id. intros k vs. unfold qq_only.
    intros [_ <-]%lookup_singleton_Some. discriminate. }
  split; [exact H0|]. split; [exact H1|]. split.
  - apply lookup_singleton_eq.
  - intros nd al. rewrite H0, H1. intros H.
    apply (f_equal (λ m, m !! "qq_numbers")) in H.
    unfold qq_only in H. rewrite lookup_empty, lookup_singleton_eq in H. discriminate.
Qed.

(** C6 (amended): for a raw record in which every key but [qq_numbers] is
    absent or empty, [_sanitize] returns the empty record ([qq_numbers] is
    not in the field order, so it is not kept), and [format_display] returns
    no line for the sanitized record, nor for the raw record itself. *)
Theorem sanitize_qq_only (nd al : pychar → bool) (desensitize : bool)
    (data : gmap string (list pystr)) :
  (∀ k, k ≠ "qq_numbers" → data !! k = None ∨ data !! k = Some []) →
  _sanitize nd al desensitize data = ∅
  ∧ format_display (_sanitize nd al desensitize data) = []
  ∧ format_display data = [].
Proof.
  intros Honly.
  assert (∀ kv, kv ∈ FIELD_LABELS → display_entry data kv = []) as Hentry.
  { intros kv Hin. unfold display_entry.
    destruct (Honly kv.1) as [-> | ->]; try reflexivity.
    intros Hq. apply qq_not_in_order. rewrite <- Hq.
    unfold DEFAULT_FIELD_ORDER. apply list_elem_of_In, in_map, list_elem_of_In, Hin. }
  assert (_sanitize nd al desensitize data = ∅) as ->.
  { apply map_empty. intros k. rewrite sanitize_lookup.
    case_decide as Hin; [|reflexivity]. unfold sanitize_entry.
    destruct (Honly k) as [-> | ->]; try reflexivity.
    intros ->. exact (qq_not_in_order Hin). }
  split; [reflexivity|]. split; [reflexivity|].
  rewrite format_display_concat.
  induction FIELD_LABELS as [|kv l IH]; [reflexivity|]. cbn [map concat].
  rewrite Hentry by left. apply IH. intros kv' Hin. apply Hentry. right. exact Hin.
Qed.

Lemma sanitize_qq_only_witness :
  _sanitize no_table no_table true qq_only = ∅
  ∧ format_display (_sanitize no_table no_table true qq_only) = []
  ∧ format_display qq_only = [].
Proof.
  apply (sanitize_qq_only no_table no_table true qq_only).
  intros k Hk. left. apply lookup_singleton_ne. congruence.
Defined.

(** C6 as stated fails on the record that holds [qq_numbers] alone: the
    sanitized record is empty and does not hold the key. *)
Lemma sanitize_qq_only_is_empty :
  qq_only !! "qq_numbers" = Some [py "10001"]
  ∧ (∀ nd al d, _sanitize nd al d qq_only = ∅)
  ∧ (∀ nd al d, _sanitize nd al d qq_only !! "qq_numbers" = None).
Proof.
  assert (∀ nd al d, _sanitize nd al d qq_only = ∅) as H0
    by (intros; apply sanitize_qq_only_empty).
  split; [apply lookup_singleton_eq|]. split; [exact H0|].
  intros nd al d. rewrite H0. apply lookup_empty.
Qed.

(** ** The request and [fetch] *)

Section Fetch.

Import Untyped.

Variable nd al : pychar → bool.
Variable desensitize : bool.

Lemma request_data_field body :
  _request (GetResponse 200 (JsonValue body))
  = Returns (if truthy (data_field body) then data_field body else VNone).
Proof.
  unfold _request. cbn.
  destruct body; cbn; try reflexivity.
  destruct (truthy (default VNone (dict_get d "data"))); reflexivity.
Qed.

(** Every failure of the request is turned into [None], by [_request]
    and so by [fetch]. *)
Lemma fetch_failure_none remote :
  request_fails remote = true → fetch nd al desensitize remote = Returns VNone.
Proof.
  unfold fetch. destruct remote as [|status [|body]]; cbn [request_fails].
  - reflexivity.
  - rewrite orb_true_r. intros _. unfold _request. cbn.
    destruct (negb (status =? 200)%Z); reflexivity.
  - destruct (Z.eqb_spec status 200) as [->|Hne]; cbn [negb orb].
    + intros Hf. rewrite request_data_field.
      destruct (truthy (data_field body)); [discriminate|reflexivity].
    + intros _. unfold _request. cbn.
      destruct (Z.eqb_spec status 200); [done|reflexivity].
Qed.

Lemma dict_get_elem (d : list (string * pyval)) key v :
  dict_get d key = Some v → ∃ kv, kv ∈ d ∧ kv.2 = v.
Proof.
  induction d as [|[k w] d IH]; cbn; [discriminate|].
  destruct (String.eqb k key).
  - intros [= <-]. exists (k, w). split; [left|reflexivity].
  - intros (kv & Hin & Hv)%IH. exists kv. split; [right; exact Hin|exact Hv].
Qed.

Lemma dict_set_Forall (Q : pyval → Prop) d key v :
  Forall (λ kv, Q kv.2) d → Q v → Forall (λ kv, Q kv.2) (dict_set d key v).
Proof.
  intros Hd Hv. induction Hd as [|[k w] d Hw Hd IH]; cbn.
  - repeat constructor. exact Hv.
  - destruct (String.eqb k key); constructor; assumption.
Qed.

Lemma map_raising_mask (mask : pystr → pystr) (l : list pystr) :
  map_raising (py_mask mask) (map VStr l) = Returns (map VStr (map mask l)).
Proof.
  induction l as [|x l IH]; [reflexivity|]. cbn. rewrite IH. reflexivity.
Qed.

Lemma sanitize_step_record d sanitized key :
  Forall (λ kv, string_list kv.2) d →
  Forall (λ kv, nonempty_list kv.2) sanitized →
  ∃ sanitized',
    sanitize_step nd al desensitize (VDict d) (Returns sanitized) key = Returns sanitized'
    ∧ Forall (λ kv, nonempty_list kv.2) sanitized'.
Proof.
  intros Hd Hs. unfold sanitize_step. cbn.
  destruct (dict_get d key) as [v|] eqn:Hget; cbn; [|eauto].
  apply dict_get_elem in Hget as (kv & Hin & <-).
  destruct (proj1 (Forall_forall _ _) Hd kv Hin) as [[|x l] ->]; cbn; [eauto|].
  destruct (String.eqb key "phone_numbers" && desensitize);
    [|destruct (String.eqb key "id_numbers" && desensitize)].
  - change (VStr x :: map VStr l) with (map VStr (x :: l)).
    rewrite map_raising_mask. cbn. eexists. split; [reflexivity|].
    apply (dict_set_Forall nonempty_list); [exact Hs|]. unfold nonempty_list. eauto.
  - change (VStr x :: map VStr l) with (map VStr (x :: l)).
    rewrite map_raising_mask. cbn. eexists. split; [reflexivity|].
    apply (dict_set_Forall nonempty_list); [exact Hs|]. unfold nonempty_list. eauto.
  - eexists. split; [reflexivity|].
    apply (dict_set_Forall nonempty_list); [exact Hs|]. exists x, l. reflexivity.
Qed.

(** On a record of lists of strings [_sanitize] raises nothing and
    returns a mapping of non-empty lists. *)
Lemma sanitize_record raw :
  record_shaped raw →
  ∃ r, _sanitize nd al desensitize raw = Returns r ∧ nonempty_fields r.
Proof.
  intros (d & -> & Hd). unfold _sanitize.
  assert (∀ keys sanitized,
            Forall (λ kv, nonempty_list kv.2) sanitized →
            ∃ sanitized',
              foldl (sanitize_step nd al desensitize (VDict d)) (Returns sanitized) keys
              = Returns sanitized'
              ∧ Forall (λ kv, nonempty_list kv.2) sanitized') as Hloop.
  { induction keys as [|key keys IH]; intros sanitized Hs; cbn [foldl]; [eauto|].
    destruct (sanitize_step_record d sanitized key Hd Hs) as (s' & -> & Hs').
    apply IH, Hs'. }
  destruct (Hloop DEFAULT_FIELD_ORDER [] ltac:(constructor)) as (s' & -> & Hs').
  cbn. eexists. split; [reflexivity|]. exists s'. split; [reflexivity|exact Hs'].
Qed.

End Fetch.

Section Agreement.

Variable nd al : pychar → bool.
Variable desensitize : bool.

Lemma list_to_map_dict_get (items : list (string * list pystr)) k :
  (list_to_map items : gmap string (list pystr)) !! k = dict_get items k.
Proof.
  induction items as [|[k' v] items IH]; cbn; [apply lookup_empty|].
  destruct (String.eqb_spec k' k) as [->|Hne].
  - apply lookup_insert_eq.
  - rewrite lookup_insert_ne by exact Hne. exact IH.
Qed.

Lemma dict_get_map {V W} (f : V → W) (d : list (string * V)) k :
  dict_get (map (λ kv, (kv.1, f kv.2)) d) k = f <$> dict_get d k.
Proof.
  induction d as [|[k' v] d IH]; cbn; [reflexivity|].
  destruct (String.eqb k' k); [reflexivity|exact IH].
Qed.

Lemma dict_get_set d key v k :
  dict_get (Untyped.dict_set d key v) k
  = if String.eqb key k then Some v else dict_get d k.
Proof.
  induction d as [|[k' w] d IH]; cbn.
  - reflexivity.
  - destruct (String.eqb_spec k' key) as [->|Hne]; cbn.
    + destruct (String.eqb key k); reflexivity.
    + rewrite IH. destruct (String.eqb_spec k' k) as [->|Hne']; [|reflexivity].
      destruct (String.eqb_spec key k); [congruence|reflexivity].
Qed.

Lemma holds_set sd m key vs :
  Untyped.holds sd m → Untyped.holds (Untyped.dict_set sd key (Untyped.of_values vs)) (<[key := vs]> m).
Proof.
  intros H k. rewrite dict_get_set.
  destruct (String.eqb_spec key k) as [->|Hne].
  - rewrite lookup_insert_eq. reflexivity.
  - rewrite lookup_insert_ne by exact Hne. apply H.
Qed.

Lemma sanitize_step_agrees items sd m key :
  Untyped.holds sd m →
  ∃ sd',
    Untyped.sanitize_step nd al desensitize (Untyped.of_record items) (Untyped.Returns sd) key
    = Untyped.Returns sd'
    ∧ Untyped.holds sd' (sanitize_step nd al desensitize (list_to_map items) m key).
Proof.
  intros H. unfold Untyped.sanitize_step, sanitize_step, Untyped.of_record. cbn.
  rewrite (dict_get_map Untyped.of_values), list_to_map_dict_get.
  destruct (dict_get items key) as [[|v vs]|]; cbn;
    [exists sd; split; [reflexivity|exact H]| |exists sd; split; [reflexivity|exact H]].
  destruct (String.eqb key "phone_numbers" && desensitize);
    [|destruct (String.eqb key "id_numbers" && desensitize)].
  - change (Untyped.VStr v :: map Untyped.VStr vs) with (map Untyped.VStr (v :: vs)).
    rewrite map_raising_mask. cbn. eexists. split; [reflexivity|].
    apply (holds_set _ _ _ (_ :: _)), H.
  - change (Untyped.VStr v :: map Untyped.VStr vs) with (map Untyped.VStr (v :: vs)).
    rewrite map_raising_mask. cbn. eexists. split; [reflexivity|].
    apply (holds_set _ _ _ (_ :: _)), H.
  - eexists. split; [reflexivity|]. apply (holds_set _ _ _ (v :: vs)), H.
Qed.

(** The two embeddings of [_sanitize] agree on records: the untyped one
    raises nothing and returns the dict of the typed one. *)
Lemma untyped_sanitize_agrees items :
  ∃ sd, Untyped._sanitize nd al desensitize (Untyped.of_record items) = Untyped.Returns (Untyped.VDict sd)
        ∧ Untyped.holds sd (_sanitize nd al desensitize (list_to_map items)).
Proof.
  unfold Untyped._sanitize, _sanitize.
  assert (∀ keys sd m, Untyped.holds sd m →
            ∃ sd',
              foldl (Untyped.sanitize_step nd al desensitize (Untyped.of_record items))
                    (Untyped.Returns sd) keys = Untyped.Returns sd'
              ∧ Untyped.holds sd'
                  (foldl (sanitize_step nd al desensitize (list_to_map items))
                         m keys)) as Hloop.
  { induction keys as [|key keys IH]; intros sd m H; cbn [foldl]; [eauto|].
    destruct (sanitize_step_agrees items sd m key H) as (sd' & -> & H').
    apply IH, H'. }
  destruct (Hloop DEFAULT_FIELD_ORDER [] ∅) as (sd & -> & H).
  - intros k. rewrite lookup_empty. reflexivity.
  - exists sd. split; [reflexivity|exact H].
Qed.

End Agreement.

(** On an answer whose [data] field, when it is present and truthy, is a
    record of lists of strings, [fetch] raises nothing: it returns [None] on
    each failure of the request and a mapping of non-empty fields otherwise. *)
Theorem fetch_never_raises_on_records (nd al : pychar → bool) (desensitize : bool)
    (remote : Untyped.get_result) :
  (∀ body, remote = Untyped.GetResponse 200 (Untyped.JsonValue body) →
           Untyped.truthy (Untyped.data_field body) = true →
           Untyped.record_shaped (Untyped.data_field body)) →
  (Untyped.request_fails remote = true
   ∧ Untyped.fetch nd al desensitize remote = Untyped.Returns Untyped.VNone)
  ∨ (Untyped.request_fails remote = false
     ∧ ∃ r, Untyped.fetch nd al desensitize remote = Untyped.Returns r
            ∧ Untyped.nonempty_fields r).
Proof.
  intros Hshape.
  destruct (Untyped.request_fails remote) eqn:Hfail.
  - left. split; [reflexivity|]. apply fetch_failure_none, Hfail.
  - right. split; [reflexivity|].
    destruct remote as [|status [|body]]; cbn in Hfail; try discriminate;
      [rewrite orb_true_r in Hfail; discriminate|].
    apply orb_false_iff in Hfail as [Hst Ht].
    apply negb_false_iff, Z.eqb_eq in Hst as ->.
    apply negb_false_iff in Ht.
    destruct (sanitize_record nd al desensitize _ (Hshape body eq_refl Ht))
      as (r & Hr & Hne).
    exists r. split; [|exact Hne].
    unfold Untyped.fetch. rewrite request_data_field, Ht. cbn.
    rewrite Ht. exact Hr.
Qed.

Lemma fetch_never_raises_on_records_witness :
  (Untyped.request_fails Untyped.phone_response = true
   ∧ Untyped.fetch no_table no_table true Untyped.phone_response
     = Untyped.Returns Untyped.VNone)
  ∨ (Untyped.request_fails Untyped.phone_response = false
     ∧ ∃ r, Untyped.fetch no_table no_table true Untyped.phone_response
            = Untyped.Returns r
            ∧ Untyped.nonempty_fields r).
Proof.
  apply (fetch_never_raises_on_records no_table no_table true Untyped.phone_response).
  intros body [= <-] _. eexists. split; [reflexivity|].
  repeat constructor. exists [py "13812345678"]. reflexivity.
Defined.

Example fetch_phone_response :
  Untyped.fetch no_table no_table true Untyped.phone_response
  = Untyped.Returns (Untyped.of_record [("phone_numbers", [py "138****5678"])]).
Proof. reflexivity. Qed.

(** C5: [fetch] does raise.  When the service answers 200 with the body
    [{"data": [1]}], [_request] raises nothing and returns the list, and
    [_sanitize], which [fetch] calls outside the [try] of [_request], raises
    [AttributeError] at [data.get]; the same list sent as the whole body is
    caught in [_request] and gives [None].  With the flag on, a phone number
    sent as a JSON number raises [TypeError] in the mask. *)
Theorem fetch_raises_on_other_data :
  (∀ nd al d,
     Untyped.fetch nd al d
       (Untyped.GetResponse 200 (Untyped.JsonValue (Untyped.VDict
          [("data", Untyped.VList [Untyped.VInt 1])])))
     = Untyped.Raises Untyped.AttributeError)
  ∧ Untyped._request
      (Untyped.GetResponse 200 (Untyped.JsonValue (Untyped.VDict
         [("data", Untyped.VList [Untyped.VInt 1])])))
    = Untyped.Returns (Untyped.VList [Untyped.VInt 1])
  ∧ (∀ nd al d,
       Untyped.fetch nd al d
         (Untyped.GetResponse 200 (Untyped.JsonValue (Untyped.VList [Untyped.VInt 1])))
       = Untyped.Returns Untyped.VNone)
  ∧ (∀ nd al,
       Untyped.fetch nd al true
         (Untyped.GetResponse 200 (Untyped.JsonValue (Untyped.VDict
            [("data", Untyped.VDict
                [("phone_numbers", Untyped.VList [Untyped.VInt 13812345678])])])))
       = Untyped.Raises Untyped.TypeError)
  ∧ (∀ nd al,
       Untyped.fetch nd al false
         (Untyped.GetResponse 200 (Untyped.JsonValue (Untyped.VDict
            [("data", Untyped.VDict
                [("phone_numbers", Untyped.VList [Untyped.VInt 13812345678])])])))
       = Untyped.Returns (Untyped.VDict
           [("phone_numbers", Untyped.VList [Untyped.VInt 13812345678])])).
Proof. repeat split; intros; reflexivity. Qed.

(** Calls in turn: [fetch] is a function of the answer to its own request
    only, so a failed call leaves the next one what it would have been. *)
Lemma fetch_calls_in_turn (nd al : pychar → bool) (desensitize : bool)
    (remotes : list Untyped.get_result) :
  Forall (λ remote, Untyped.request_fails remote = true) remotes →
  map (Untyped.fetch nd al desensitize) remotes
  = map (λ _, Untyped.Returns Untyped.VNone) remotes.
Proof.
  induction 1 as [|remote remotes Hf _ IH]; [reflexivity|]. cbn.
  rewrite IH, (fetch_failure_none nd al desensitize remote Hf). reflexivity.
Qed.

(** ** The examples of the documentation *)

Example mask_phone_plain nd :
  _mask_phone nd (py "13812345678") = py "138****5678".
Proof. reflexivity. Qed.

(** The Chinese text of the example is read with tables in which its
    characters are not digits. *)
Example mask_phone_annotated nd :
  (∀ c, c ∈ py "联系电话转" → nd c = false) →
  _mask_phone nd (py "联系电话13812345678转8") = py "联系电话138****5678转8".
Proof.
  intros H. vm_compute in H. vm_compute.
  rewrite !H by (repeat constructor). reflexivity.
Qed.

Example mask_phone_no_digits nd : _mask_phone nd (py "abc") = py "abc".
Proof. reflexivity. Qed.

Example mask_id_check_letter nd al :
  _mask_id_number nd al (py "11010119900307123x") = py "110101********123x".
Proof. reflexivity. Qed.

Example utf8_label : py "姓名：" = [22995; 21517; 65306]%N.
Proof. reflexivity. Qed.

Example request_status_500 body :
  Untyped._request (Untyped.GetResponse 500 body) = Untyped.Returns Untyped.VNone.
Proof. reflexivity. Qed.

Example request_body_is_list :
  Untyped._request
    (Untyped.GetResponse 200 (Untyped.JsonValue (Untyped.VList [Untyped.VInt 1])))
  = Untyped.Returns Untyped.VNone.
Proof. reflexivity. Qed.

(** * Further properties of the code *)

(** ** The phone mask: what is left to read *)

Lemma starred_by_run (c : cls) n (s out : pystr) j :
  c star = false → starred_by c s out →
  run_at c n (drop j out) = true → run_at c n (drop j s) = true.
Proof.
  intros Hstar H. unfold run_at.
  pose proof (Forall2_take _ _ _ n (Forall2_drop _ _ _ j H)) as Ht.
  rewrite <- (Forall2_length _ _ _ Ht).
  intros [-> Hf]%andb_true_iff. cbn [andb].
  induction Ht as [|x y l k Hxy _ IH]; [reflexivity|]. cbn in *.
  apply andb_true_iff in Hf as [Hy Hk]. rewrite (IH Hk), andb_true_r.
  destruct Hxy as [->|[_ ->]]; [exact Hy|congruence].
Qed.

Lemma run_at_lookup (c : cls) n (s : pystr) i :
  run_at c n s = true → i < n → ∃ x, s !! i = Some x ∧ c x = true.
Proof.
  intros (Hl & Hf & Hn)%run_at_true Hi.
  destruct (lookup_lt_is_Some_2 (take n s) i) as [x Hx]; [lia|].
  exists x. split.
  - rewrite lookup_take_lt in Hx by exact Hi. exact Hx.
  - rewrite forallb_forall in Hf. apply Hf, list_elem_of_In.
    apply list_elem_of_lookup. eauto.
Qed.

(** X1: the phone mask makes no run of eleven digits: wherever eleven
    digits begin in its output, eleven digits begin at that position of the
    input. *)
Theorem mask_phone_no_new_run (nd : pychar → bool) (number : pystr) (j : nat) :
  run_at (cls_d nd) 11 (drop j (_mask_phone nd number)) = true →
  run_at (cls_d nd) 11 (drop j number) = true.
Proof.
  apply starred_by_run; [apply star_not_digit|apply mask_phone_starred].
Qed.

Lemma mask_phone_no_new_run_witness :
  run_at (cls_d no_table) 11 (drop 11 (py "1381234567813912345678")) = true.
Proof.
  apply (mask_phone_no_new_run no_table (py "1381234567813912345678") 11).
  reflexivity.
Defined.

(** X2: the number that was found cannot be read any more: no eleven digits
    begin in the output before the end of the four stars, so a run left in
    the output lies wholly after them. *)
Theorem mask_phone_hides_match (nd : pychar → bool) (number : pystr) (m : rmatch) (j : nat) :
  re_search (pat_phone nd) number = Some m →
  j < m_start m + 7 →
  run_at (cls_d nd) 11 (drop j (_mask_phone nd number)) = false.
Proof.
  intros Hs Hj.
  destruct (run_at _ 11 (drop j (_mask_phone nd number))) eqn:Hrun; [|reflexivity].
  exfalso.
  pose proof (starred_by_run _ _ _ _ _ (star_not_digit nd)
                (mask_phone_starred nd number) Hrun) as Hin.
  pose proof (mask_phone_some nd number m Hs) as (Hk & Hnone & Hout).
  set (k := m_start m) in *.
  assert (k ≤ j) as Hkj.
  { destruct (le_lt_dec k j) as [|Hlt]; [assumption|].
    rewrite (Hnone j Hlt) in Hin. discriminate. }
  apply run_at_true in Hk as (_ & _ & Hlen). rewrite length_drop in Hlen.
  destruct (run_at_lookup _ _ _ (k + 6 - j) Hrun) as (x & Hx & Hd); [lia|].
  rewrite lookup_drop in Hx. replace (j + (k + 6 - j)) with (k + 6) in Hx by lia.
  rewrite Hout in Hx.
  rewrite lookup_app_r in Hx by (rewrite length_take; lia).
  rewrite length_take, Nat.min_l in Hx by lia.
  replace (k + 6 - k) with 6 in Hx by lia.
  rewrite lookup_app_l in Hx
    by (rewrite !length_app, !length_take, length_replicate, !length_drop; lia).
  rewrite lookup_app_r in Hx by (rewrite length_take, length_drop; lia).
  rewrite length_take, length_drop, Nat.min_l in Hx by lia.
  cbn in Hx. injection Hx as <-. rewrite star_not_digit in Hd. discriminate.
Qed.

Lemma mask_phone_hides_match_witness :
  run_at (cls_d no_table) 11 (drop 4 (_mask_phone no_table (py "tel 13812345678901"))) = false.
Proof.
  apply (mask_phone_hides_match no_table (py "tel 13812345678901")
           (RMatch 4 [(true, py "13812345678")]) 4).
  - reflexivity.
  - cbn. lia.
Defined.

(** X3: a value in which no eleven digits stand in a row comes out with no
    digit at all, whatever text is around its digits. *)
Theorem mask_phone_without_run (nd : pychar → bool) (number : pystr) :
  (∀ j, run_at (cls_d nd) 11 (drop j number) = false) →
  _mask_phone nd number = map (star_class (cls_d nd)) number
  ∧ forallb (λ x, negb (cls_d nd x)) (_mask_phone nd number) = true.
Proof.
  intros Hnone.
  rewrite (mask_phone_none nd number) by apply re_search_phone_none, Hnone.
  rewrite star_class_map. split; [reflexivity|].
  apply star_class_free, star_not_digit.
Qed.

Lemma mask_phone_without_run_witness :
  _mask_phone no_table (py "138-1234-5678") = map (star_class (cls_d no_table)) (py "138-1234-5678")
  ∧ forallb (λ x, negb (cls_d no_table x)) (_mask_phone no_table (py "138-1234-5678")) = true.
Proof.
  apply (mask_phone_without_run no_table (py "138-1234-5678")).
  intros j. do 14 (destruct j as [|j]; [reflexivity|]). reflexivity.
Defined.

(** ** The ID mask: its three outcomes *)

Section IdOutcomes.

Variable nd al : pychar → bool.

Lemma mask_id_eighteen_split (pre core suf : pystr) :
  length core = 18 →
  forallb (cls_d nd) (take 17 core) = true →
  forallb cls_digit_or_x (drop 17 core) = true →
  (∀ j, j < length pre → id_run_at nd (drop j (pre ++ core ++ suf)) = false) →
  _mask_id_number nd al (pre ++ core ++ suf)
  = pre ++ (take 6 core ++ replicate 8 star ++ drop 14 core) ++ suf.
Proof.
  intros Hlen Hd Hx Hnone.
  destruct (re_search_id18 nd pre core suf Hlen Hd Hx Hnone) as (m & Hs & Hst & Hc).
  destruct (mask_id_reassemble nd al _ _ _ _ Hs Hst Hc) as (masked & -> & ->).
  destruct (mask_id_core18 nd al core Hlen Hd Hx) as (-> & ->). reflexivity.
Qed.

(** The input around the leftmost ID run, when there is one. *)
Lemma id_run_split (s : pystr) m :
  re_search (pat_id nd) s = Some m →
  ∃ pre core suf,
    s = pre ++ core ++ suf ∧ length pre = m_start m ∧ m_group1 m = core
    ∧ (∀ j, j < length pre → id_run_at nd (drop j s) = false)
    ∧ ((length core = 18 ∧ forallb (cls_d nd) (take 17 core) = true
        ∧ forallb cls_digit_or_x (drop 17 core) = true)
       ∨ (length core = 15 ∧ forallb (cls_d nd) core = true
          ∧ id18_at nd (core ++ suf) = false)).
Proof.
  intros (k & r & Hst & Hk & Hm & Hnone)%search_from_Some. cbn in Hst.
  set (X := drop k s) in *. rewrite match_here_id in Hm.
  assert (∀ j, j < length (take k s) → id_run_at nd (drop j s) = false) as Hno.
  { intros j Hj. rewrite length_take in Hj. apply id_run_at_match, Hnone. lia. }
  assert (length (take k s) = m_start m) as Hpre by (rewrite length_take; lia).
  destruct (id18_at nd X) eqn:H18.
  - injection Hm as Hsegs _.
    apply andb_true_iff in H18 as [(L1 & D1 & N1)%run_at_true (L2 & D2 & N2)%run_at_true].
    assert (take 17 X ++ take 1 (drop 17 X) = take 18 X) as Hcore
      by apply (take_take_drop X 17 1).
    exists (take k s), (take 18 X), (drop 18 X).
    split; [|split; [exact Hpre|split; [|split; [exact Hno|left]]]].
    + unfold X. rewrite take_drop, take_drop. reflexivity.
    + unfold m_group1, seg_text. rewrite <- Hsegs. cbn. rewrite app_nil_r. exact Hcore.
    + rewrite <- Hcore. rewrite length_app, L1, L2.
      rewrite take_app_length', drop_app_length' by (symmetry; exact L1). done.
  - destruct (id15_at nd X) eqn:H15; [|discriminate].
    injection Hm as Hsegs _.
    apply run_at_true in H15 as (L & D & N).
    exists (take k s), (take 15 X), (drop 15 X).
    split; [|split; [exact Hpre|split; [|split; [exact Hno|right]]]].
    + unfold X. rewrite take_drop, take_drop. reflexivity.
    + unfold m_group1, seg_text. rewrite <- Hsegs. cbn. apply app_nil_r.
    + rewrite take_drop. done.
Qed.

(** X4: the ID mask keeps the length of its input, but for a run of fifteen
    digits, which it makes one character longer. *)
Theorem mask_id_length (id_num : pystr) :
  length (_mask_id_number nd al id_num)
  = length id_num
    + match re_search (pat_id nd) id_num with
      | Some m => if id18_at nd (drop (m_start m) id_num) then 0 else 1
      | None => 0
      end.
Proof.
  destruct (re_search (pat_id nd) id_num) as [m|] eqn:Hs.
  - destruct (id_run_split _ _ Hs)
      as (pre & core & suf & Hsplit & Hpre & _ & Hno & [(Hl & Hd & Hx)|(Hl & Hd & H18)]).
    + rewrite Hsplit in Hno. rewrite Hsplit at 1.
      rewrite (mask_id_eighteen_split pre core suf Hl Hd Hx Hno).
      destruct (id18_at_app nd core suf Hl Hd Hx) as (H18 & _).
      rewrite <- Hpre, Hsplit, drop_app_length, H18.
      rewrite !length_app, length_take, length_replicate, length_drop. lia.
    + rewrite Hsplit in Hno. rewrite Hsplit at 1.
      rewrite (mask_id_fifteen nd al pre core suf Hl Hd H18 Hno).
      rewrite <- Hpre, Hsplit, drop_app_length, H18.
      rewrite !length_app, length_take, length_replicate, length_drop. lia.
  - rewrite (mask_id_none nd al _ Hs), length_map. lia.
Qed.

(** X5: a run of fifteen digits that the search finds, and that does not
    begin an eighteen-character run, comes out as its first six digits, six
    stars and its last four digits, between the text before and after it. *)
Theorem mask_id_fifteen_keeps_four (pre core suf : pystr) :
  length core = 15 →
  forallb (cls_d nd) core = true →
  id18_at nd (core ++ suf) = false →
  (∀ j, j < length pre → id_run_at nd (drop j (pre ++ core ++ suf)) = false) →
  _mask_id_number nd al (pre ++ core ++ suf)
  = pre ++ (take 6 core ++ replicate 6 star ++ drop 11 core) ++ suf
  ∧ length (drop 11 core) = 4
  ∧ length (_mask_id_number nd al (pre ++ core ++ suf))
    = S (length (pre ++ core ++ suf)).
Proof.
  intros Hl Hd H18 Hno.
  rewrite (mask_id_fifteen nd al pre core suf Hl Hd H18 Hno).
  split; [reflexivity|]. split; [rewrite length_drop; lia|].
  rewrite !length_app, length_take, length_replicate, length_drop. lia.
Qed.

(** X6: whatever the search finds has eighteen characters and fits the
    first pattern, or fifteen and fits the second, so the third branch,
    the mask that keeps three characters and two, is never taken. *)
Theorem mask_id_third_branch_dead (id_num : pystr) (m : rmatch) :
  re_search (pat_id nd) id_num = Some m →
  (length (m_group1 m) = 18 ∧ re_fullmatch (seq_id18 nd al) (m_group1 m) = true)
  ∨ (length (m_group1 m) = 15
     ∧ re_fullmatch (seq_id18 nd al) (m_group1 m) = false
     ∧ re_fullmatch (seq_id15 nd al) (m_group1 m) = true).
Proof.
  intros Hs.
  destruct (id_run_split _ _ Hs)
    as (pre & core & suf & _ & _ & -> & _ & [(Hl & Hd & Hx)|(Hl & Hd & _)]).
  - left. split; [exact Hl|]. apply (mask_id_core18 nd al core Hl Hd Hx).
  - right. split; [exact Hl|].
    destruct (mask_id_core15 nd al core Hl Hd) as (H1 & H2 & _). done.
Qed.

(** X7: a value with no ID run comes out with every ASCII letter and digit
    starred and every other character, a Chinese one or a digit of another
    script, where it was. *)
Theorem mask_id_without_run (id_num : pystr) :
  (∀ j, id_run_at nd (drop j id_num) = false) →
  _mask_id_number nd al id_num = map (star_class cls_ascii_alnum) id_num
  ∧ forallb (λ x, negb (cls_ascii_alnum x)) (_mask_id_number nd al id_num) = true
  ∧ starred_by cls_ascii_alnum id_num (_mask_id_number nd al id_num).
Proof.
  intros Hnone.
  rewrite (mask_id_none nd al id_num) by apply re_search_id_none, Hnone.
  split; [reflexivity|]. split.
  - rewrite star_class_map. apply star_class_free, star_not_alnum.
  - apply starred_by_map.
Qed.

End IdOutcomes.

Lemma mask_id_fifteen_keeps_four_witness :
  _mask_id_number no_table no_table (py "no.110101900307123.")
  = py "no." ++ (take 6 (py "110101900307123") ++ replicate 6 star
                 ++ drop 11 (py "110101900307123")) ++ py "."
  ∧ length (drop 11 (py "110101900307123")) = 4
  ∧ length (_mask_id_number no_table no_table (py "no.110101900307123."))
    = S (length (py "no.110101900307123.")).
Proof.
  apply (mask_id_fifteen_keeps_four no_table no_table
           (py "no.") (py "110101900307123") (py ".")).
  - reflexivity.
  - reflexivity.
  - reflexivity.
  - intros j Hj. do 3 (destruct j as [|j]; [reflexivity|]). vm_compute in Hj. lia.
Defined.

Lemma mask_id_third_branch_dead_witness :
  re_fullmatch (seq_id15 no_table no_table) (py "110101199003071") = true.
Proof.
  destruct (mask_id_third_branch_dead no_table no_table (py "#1101011990030712")
              (RMatch 1 [(false, py "110101199003071")]) eq_refl)
    as [[H _]|(_ & _ & H)]; [discriminate H|exact H].
Defined.

Lemma mask_id_without_run_witness :
  forallb (λ x, negb (cls_ascii_alnum x))
    (_mask_id_number no_table no_table (py "ab-12 x")) = true.
Proof.
  apply (mask_id_without_run no_table no_table (py "ab-12 x")).
  intros j. do 8 (destruct j as [|j]; [reflexivity|]). reflexivity.
Defined.

(** ** Sanitizing and formatting together *)

Section Pipeline.

Variable nd al : pychar → bool.

Lemma sanitize_lookup_in desensitize (data : gmap string (list pystr)) k :
  k ∈ DEFAULT_FIELD_ORDER →
  _sanitize nd al desensitize data !! k
  = match data !! k with
    | Some (v :: vs) => Some (map (field_mask nd al desensitize k) (v :: vs))
    | _ => None
    end.
Proof.
  intros Hin. rewrite sanitize_lookup, decide_True by exact Hin. reflexivity.
Qed.

(** X8: sanitizing with the flag off is absorbed: done before or after
    another pass of [_sanitize], it changes nothing, and so it is idempotent. *)
Theorem sanitize_flag_off_absorbed (desensitize : bool) (data : gmap string (list pystr)) :
  _sanitize nd al desensitize (_sanitize nd al false data)
  = _sanitize nd al desensitize data
  ∧ _sanitize nd al false (_sanitize nd al desensitize data)
    = _sanitize nd al desensitize data.
Proof.
  split; apply map_eq; intros k; rewrite !(sanitize_lookup _ _ _ _ k);
    case_decide as Hin; try reflexivity; unfold sanitize_entry.
  - rewrite (sanitize_lookup_in false data k Hin).
    destruct (data !! k) as [[|v vs]|]; try reflexivity.
    cbn [field_mask]. rewrite (map_id (v :: vs)). reflexivity.
  - rewrite (sanitize_lookup_in desensitize data k Hin).
    destruct (data !! k) as [[|v vs]|]; try reflexivity.
    cbn [map field_mask]. rewrite map_id. reflexivity.
Qed.

Lemma format_display_sanitized desensitize (data : gmap string (list pystr)) :
  format_display (_sanitize nd al desensitize data)
  = concat (map (sanitized_entry nd al desensitize data) FIELD_LABELS).
Proof.
  rewrite format_display_concat. f_equal. apply map_ext_in.
  intros kv Hin. unfold display_entry, sanitized_entry.
  rewrite sanitize_lookup_in
    by (unfold DEFAULT_FIELD_ORDER; apply list_elem_of_In, in_map, Hin).
  destruct (data !! kv.1) as [[|v vs]|]; reflexivity.
Qed.

(** X9: what is shown of a sanitized record: for each labelled key that the
    raw record holds with values, in the order of the labels, the label, the
    fullwidth colon and the values with [" | "] between them, each value
    masked under the two masked keys when the flag is on; with the flag off
    sanitizing does not change what is shown. *)
Theorem display_of_sanitized (desensitize : bool) (data : gmap string (list pystr)) :
  format_display (_sanitize nd al desensitize data)
  = concat (map (λ kv : string * pystr,
                   match data !! kv.1 with
                   | Some (v :: vs) =>
                     [kv.2 ++ py "：" ++ field_mask nd al desensitize kv.1 v
                      ++ concat (map (λ y, py " | " ++ field_mask nd al desensitize kv.1 y)
                                     vs)]
                   | _ => []
                   end) FIELD_LABELS)
  ∧ format_display (_sanitize nd al false data) = format_display data
  ∧ format_display (_sanitize nd al true sanitize_example)
    = [py "姓名：张三 | 李四"; py "号码：138****5678 | tel 139****5678"]
  ∧ format_display (_sanitize nd al false sanitize_example)
    = [py "姓名：张三 | 李四"; py "号码：13812345678 | tel 13912345678"].
Proof.
  split; [|split; [|split; reflexivity]].
  - rewrite format_display_sanitized. f_equal. apply map_ext. intros kv.
    unfold sanitized_entry, display_line.
    destruct (data !! kv.1) as [[|v vs]|]; try reflexivity.
    cbn [map]. rewrite str_join_concat, map_map. reflexivity.
  - rewrite format_display_sanitized, format_display_concat. f_equal.
    apply map_ext. intros kv. unfold display_entry, sanitized_entry.
    destruct (data !! kv.1) as [[|v vs]|]; try reflexivity.
    cbn [field_mask]. rewrite (map_id (v :: vs)). reflexivity.
Qed.

Lemma field_order_NoDup : NoDup DEFAULT_FIELD_ORDER.
Proof. apply (bool_decide_unpack _). vm_compute. reflexivity. Qed.

Lemma sanitize_step_insert desensitize (data acc : gmap string (list pystr)) key :
  sanitize_step nd al desensitize data acc key
  = match sanitize_entry nd al desensitize data key with
    | Some x => <[key := x]> acc
    | None => acc
    end.
Proof.
  unfold sanitize_step, sanitize_entry, field_mask.
  destruct (data !! key) as [[|v vs]|]; try reflexivity.
  destruct desensitize; rewrite ?andb_true_r, ?andb_false_r.
  - destruct (String.eqb key "phone_numbers"); [reflexivity|].
    destruct (String.eqb key "id_numbers"); [reflexivity|].
    rewrite (map_id (v :: vs)). reflexivity.
  - rewrite (map_id (v :: vs)). reflexivity.
Qed.

Lemma foldl_sanitize_size desensitize (data : gmap string (list pystr)) keys acc :
  NoDup keys → (∀ k, k ∈ keys → acc !! k = None) →
  size (foldl (sanitize_step nd al desensitize data) acc keys)
  = size acc + length (List.filter (has_values data) keys).
Proof.
  intros Hnd. revert acc. induction Hnd as [|key keys Hnin Hnd IH]; intros acc Hacc.
  - cbn. lia.
  - cbn [foldl List.filter]. rewrite IH.
    + rewrite sanitize_step_insert. unfold sanitize_entry, has_values.
      destruct (data !! key) as [[|v vs]|]; cbn [length]; try lia.
      rewrite map_size_insert_None by (apply Hacc; left). lia.
    + intros k Hk. rewrite sanitize_step_lookup.
      rewrite decide_False by (intros ->; exact (Hnin Hk)).
      apply Hacc. right. exact Hk.
Qed.

Lemma sanitized_entries_length desensitize (data : gmap string (list pystr))
    (labels : list (string * pystr)) :
  length (concat (map (sanitized_entry nd al desensitize data) labels))
  = length (List.filter (has_values data) (map fst labels)).
Proof.
  induction labels as [|kv labels IH]; [reflexivity|].
  cbn [map concat List.filter]. rewrite length_app, IH.
  unfold sanitized_entry, has_values.
  destruct (data !! kv.1) as [[|v vs]|]; reflexivity.
Qed.

(** X10: every key of a sanitized record gets its line: [format_display]
    returns as many lines as the record sanitized has keys. *)
Theorem display_line_per_sanitized_key (desensitize : bool)
    (data : gmap string (list pystr)) :
  length (format_display (_sanitize nd al desensitize data))
  = size (_sanitize nd al desensitize data).
Proof.
  rewrite format_display_sanitized, sanitized_entries_length. unfold _sanitize.
  rewrite foldl_sanitize_size, map_size_empty.
  - reflexivity.
  - apply field_order_NoDup.
  - intros k _. apply lookup_empty.
Qed.

End Pipeline.

(** X11: [format_display] shows nothing of a key that has no label, and an
    empty list is shown like a missing key. *)
Theorem format_display_ignores (data : gmap string (list pystr)) (k : string)
    (vs : list pystr) :
  (k ∉ DEFAULT_FIELD_ORDER → format_display (<[k := vs]> data) = format_display data)
  ∧ format_display (<[k := []]> data) = format_display (delete k data).
Proof.
  split.
  - intros Hk. rewrite !format_display_concat. f_equal. apply map_ext_in.
    intros kv Hin. unfold display_entry. rewrite lookup_insert_ne; [reflexivity|].
    intros ->. apply Hk. unfold DEFAULT_FIELD_ORDER.
    apply list_elem_of_In, in_map, Hin.
  - rewrite !format_display_concat. f_equal. apply map_ext.
    intros kv. unfold display_entry.
    destruct (decide (k = kv.1)) as [->|Hne].
    + rewrite lookup_insert_eq, lookup_delete_eq. reflexivity.
    + rewrite lookup_insert_ne, lookup_delete_ne by exact Hne. reflexivity.
Qed.

Lemma format_display_ignores_witness :
  format_display (<["qq_numbers" := [py "10001"]]> display_example)
  = format_display display_example.
Proof.
  apply (proj1 (format_display_ignores display_example "qq_numbers" [py "10001"])).
  apply qq_not_in_order.
Defined.

(** ** The request and [fetch] on any answer *)

Section AnyAnswer.

Import Untyped.

Variable nd al : pychar → bool.

Lemma request_succeeds_inv (remote : get_result) :
  request_fails remote = false →
  ∃ body, remote = GetResponse 200 (JsonValue body)
          ∧ truthy (data_field body) = true.
Proof.
  destruct remote as [|status [|body]]; cbn [request_fails]; try discriminate.
  - rewrite orb_true_r. discriminate.
  - intros [Hst Ht]%orb_false_iff.
    apply negb_false_iff, Z.eqb_eq in Hst as ->.
    apply negb_false_iff in Ht. eauto.
Qed.

(** X12: [_request] raises nothing, whatever the service does: it returns
    [None] on each failure, and otherwise the [data] field of the body,
    which is then truthy. *)
Theorem request_never_raises (remote : get_result) :
  ∃ v, _request remote = Returns v
       ∧ (request_fails remote = true → v = VNone)
       ∧ (request_fails remote = false →
          v = response_data remote ∧ truthy v = true
          ∧ ∃ body, remote = GetResponse 200 (JsonValue body)).
Proof.
  destruct (request_fails remote) eqn:Hf.
  - exists VNone. split; [|split; [reflexivity|discriminate]].
    destruct remote as [|status [|body]]; [reflexivity| |].
    + unfold _request. cbn. destruct (negb (status =? 200)%Z); reflexivity.
    + cbn [request_fails] in Hf. destruct (Z.eqb_spec status 200) as [->|Hne].
      * cbn [negb orb] in Hf. apply negb_true_iff in Hf.
        rewrite request_data_field, Hf. reflexivity.
      * unfold _request. cbn.
        destruct (Z.eqb_spec status 200); [done|reflexivity].
  - destruct (request_succeeds_inv remote Hf) as (body & -> & Ht).
    exists (data_field body). rewrite request_data_field, Ht.
    split; [reflexivity|]. split; [discriminate|]. intros _. eauto.
Qed.

Lemma fetch_success desensitize body :
  truthy (data_field body) = true →
  fetch nd al desensitize (GetResponse 200 (JsonValue body))
  = _sanitize nd al desensitize (data_field body).
Proof.
  intros Ht. unfold fetch. rewrite request_data_field, Ht. cbn. rewrite Ht.
  reflexivity.
Qed.

Lemma foldl_sanitize_raises desensitize data e keys :
  foldl (sanitize_step nd al desensitize data) (Raises e) keys = Raises e.
Proof. induction keys as [|key keys IH]; [reflexivity|exact IH]. Qed.

Lemma map_raising_mask_outcome (mask : pystr → pystr) vs :
  returns_or_type_error (map_raising (py_mask mask) vs).
Proof.
  induction vs as [|v vs IH]; [exact I|]. cbn.
  destruct v; cbn; try reflexivity.
  destruct (map_raising (py_mask mask) vs); [exact I|exact IH].
Qed.

Lemma sanitize_step_dict_outcome desensitize d sanitized key :
  returns_or_type_error
    (sanitize_step nd al desensitize (VDict d) (Returns sanitized) key).
Proof.
  unfold sanitize_step. cbn.
  destruct (negb (truthy (default VNone (dict_get d key)))); [exact I|].
  destruct (String.eqb key "phone_numbers" && desensitize);
    [|destruct (String.eqb key "id_numbers" && desensitize); [|exact I]].
  - destruct (py_iter _) as [vs|e] eqn:Hi; cbn.
    + pose proof (map_raising_mask_outcome (_mask_phone nd) vs) as H.
      destruct (map_raising _ vs); [exact I|exact H].
    + destruct (default VNone (dict_get d key)); cbn in Hi; congruence.
  - destruct (py_iter _) as [vs|e] eqn:Hi; cbn.
    + pose proof (map_raising_mask_outcome (_mask_id_number nd al) vs) as H.
      destruct (map_raising _ vs); [exact I|exact H].
    + destruct (default VNone (dict_get d key)); cbn in Hi; congruence.
Qed.

Lemma sanitize_dict_outcome desensitize d :
  returns_or_type_error (_sanitize nd al desensitize (VDict d)).
Proof.
  unfold _sanitize.
  assert (∀ keys acc, returns_or_type_error acc →
            returns_or_type_error
              (foldl (sanitize_step nd al desensitize (VDict d)) acc keys)) as Hloop.
  { induction keys as [|key keys IH]; intros acc Hacc; [exact Hacc|].
    cbn [foldl]. apply IH. destruct acc as [sanitized|e].
    - apply sanitize_step_dict_outcome.
    - exact Hacc. }
  specialize (Hloop DEFAULT_FIELD_ORDER (Returns []) I).
  destruct (foldl _ _ _); [exact I|exact Hloop].
Qed.

(** X13: [fetch] raises [AttributeError] exactly when the request
    succeeds with a [data] field that is not a dict. *)
Theorem fetch_attribute_error (desensitize : bool) (remote : get_result) :
  fetch nd al desensitize remote = Raises AttributeError
  ↔ request_fails remote = false ∧ ∀ d, response_data remote ≠ VDict d.
Proof.
  destruct (request_fails remote) eqn:Hf.
  - rewrite (fetch_failure_none nd al desensitize remote Hf).
    split; [discriminate|]. intros [? _]. discriminate.
  - destruct (request_succeeds_inv remote Hf) as (body & -> & Ht).
    cbn [response_data] in *.
    rewrite (fetch_success desensitize body Ht). split.
    + intros Hr. split; [reflexivity|]. intros d Hd. rewrite Hd in Hr.
      pose proof (sanitize_dict_outcome desensitize d) as Ho.
      rewrite Hr in Ho. discriminate Ho.
    + intros [_ Hd]. unfold _sanitize, DEFAULT_FIELD_ORDER, FIELD_LABELS.
      cbn [map fst foldl].
      destruct (data_field body) as [| | | | | |d]; try (exfalso; exact (Hd d eq_refl));
        cbn; rewrite ?foldl_sanitize_raises; reflexivity.
Qed.

Lemma dict_set_fresh (acc : list (string * pyval)) k v :
  k ∉ map fst acc → dict_set acc k v = acc ++ [(k, v)].
Proof.
  induction acc as [|[k' w] acc IH]; [reflexivity|]. cbn.
  intros Hk. destruct (String.eqb_spec k' k) as [->|Hne].
  - exfalso. apply Hk. left.
  - rewrite IH; [reflexivity|]. intros Hin. apply Hk. right. exact Hin.
Qed.

Lemma sanitize_step_flag_off d acc key :
  sanitize_step nd al false (VDict d) (Returns acc) key
  = Returns (match truthy_item d key with
             | Some kv => dict_set acc kv.1 kv.2
             | None => acc
             end).
Proof.
  unfold sanitize_step, truthy_item. cbn. rewrite !andb_false_r.
  destruct (dict_get d key) as [v|]; cbn; [|reflexivity].
  destruct (truthy v); reflexivity.
Qed.

Lemma truthy_item_key d key kv : truthy_item d key = Some kv → kv.1 = key.
Proof.
  unfold truthy_item. destruct (dict_get d key) as [v|]; [|discriminate].
  destruct (truthy v); [|discriminate]. intros [= <-]. reflexivity.
Qed.

Lemma foldl_sanitize_flag_off d keys acc :
  NoDup keys → (∀ k, k ∈ keys → k ∉ map fst acc) →
  foldl (sanitize_step nd al false (VDict d)) (Returns acc) keys
  = Returns (acc ++ omap (truthy_item d) keys).
Proof.
  intros Hnd. revert acc. induction Hnd as [|key keys Hnin Hnd IH]; intros acc Hacc.
  - cbn. rewrite app_nil_r. reflexivity.
  - cbn [foldl omap list_omap]. rewrite sanitize_step_flag_off.
    destruct (truthy_item d key) as [kv|] eqn:Hkv.
    + pose proof (truthy_item_key _ _ _ Hkv) as Hk.
      rewrite dict_set_fresh by (rewrite Hk; apply Hacc; left).
      rewrite IH.
      * rewrite <- app_assoc. destruct kv. reflexivity.
      * intros k Hin. rewrite map_app, elem_of_app. cbn.
        intros [H|H%list_elem_of_singleton].
        -- apply (Hacc k); [right; exact Hin|exact H].
        -- rewrite Hk in H. subst k. exact (Hnin Hin).
    + apply IH. intros k Hin. apply Hacc. right. exact Hin.
Qed.

(** X14: with the flag off any dict is taken as [data]: [fetch] raises
    nothing and returns, in the order of the labelled keys, the items of
    these keys whose value is truthy, the value untouched whatever its type. *)
Theorem fetch_flag_off (body : pyval) (d : list (string * pyval)) :
  data_field body = VDict d → d ≠ [] →
  fetch nd al false (GetResponse 200 (JsonValue body))
  = Returns (VDict (omap (truthy_item d) DEFAULT_FIELD_ORDER)).
Proof.
  intros Hd Hne.
  assert (truthy (data_field body) = true) as Ht
    by (rewrite Hd; destruct d; [done|reflexivity]).
  rewrite (fetch_success false body Ht), Hd. unfold _sanitize.
  rewrite (foldl_sanitize_flag_off d DEFAULT_FIELD_ORDER []).
  - reflexivity.
  - apply field_order_NoDup.
  - intros k _. apply not_elem_of_nil.
Qed.

Lemma foldl_step {A B} (f : A → B → A) a x l : foldl f a (x :: l) = foldl f (f a x) l.
Proof. reflexivity. Qed.

Lemma map_raising_mask_cases (mask : pystr → pystr) vs :
  if forallb is_str vs
  then ∃ masked, map_raising (py_mask mask) vs = Returns masked
  else map_raising (py_mask mask) vs = Raises TypeError.
Proof.
  induction vs as [|v vs IH]; cbn; [eauto|].
  destruct v; cbn; try reflexivity.
  destruct (forallb is_str vs).
  - destruct IH as [masked ->]. cbn. eauto.
  - rewrite IH. reflexivity.
Qed.

Lemma sanitize_step_pass d acc key :
  key ≠ "phone_numbers" → key ≠ "id_numbers" →
  ∃ acc', sanitize_step nd al true (VDict d) (Returns acc) key = Returns acc'.
Proof.
  intros H1 H2. unfold sanitize_step. cbn.
  destruct (String.eqb_spec key "phone_numbers"); [done|].
  destruct (String.eqb_spec key "id_numbers"); [done|]. cbn.
  destruct (negb (truthy _)); eauto.
Qed.

Lemma foldl_sanitize_pass d keys acc :
  Forall (λ key, key ≠ "phone_numbers" ∧ key ≠ "id_numbers") keys →
  ∃ acc', foldl (sanitize_step nd al true (VDict d)) (Returns acc) keys = Returns acc'.
Proof.
  intros H. revert acc. induction H as [|key keys [H1 H2] _ IH]; intros acc; [cbn; eauto|].
  cbn [foldl]. destruct (sanitize_step_pass d acc key H1 H2) as [acc' ->]. apply IH.
Qed.

Lemma sanitize_step_masked d acc key :
  key = "phone_numbers" ∨ key = "id_numbers" →
  if unmaskable (field d key)
  then sanitize_step nd al true (VDict d) (Returns acc) key = Raises TypeError
  else ∃ acc', sanitize_step nd al true (VDict d) (Returns acc) key = Returns acc'.
Proof.
  intros Hkey. unfold sanitize_step, unmaskable, field. cbn.
  set (v := default VNone (dict_get d key)).
  destruct (truthy v); cbn [negb andb]; [|eauto].
  assert (∀ mask k,
            if match py_iter v with
               | Returns vs => negb (forallb is_str vs)
               | Raises _ => true
               end
            then (vs ← py_iter v; masked ← map_raising (py_mask mask) vs;
                  Returns (dict_set acc k (VList masked))) = Raises TypeError
            else ∃ acc', (vs ← py_iter v; masked ← map_raising (py_mask mask) vs;
                          Returns (dict_set acc k (VList masked))) = Returns acc') as H.
  { intros mask k. destruct (py_iter v) as [vs|e] eqn:Hi; cbn.
    - pose proof (map_raising_mask_cases mask vs) as Hm.
      destruct (forallb is_str vs); cbn.
      + destruct Hm as [masked ->]. cbn. eauto.
      + rewrite Hm. reflexivity.
    - destruct v; cbn in Hi; congruence. }
  destruct Hkey as [-> | ->]; cbn; apply H.
Qed.

(** X15: with the flag on and a dict as [data], [fetch] raises [TypeError]
    exactly when the value of [phone_numbers] or of [id_numbers] is truthy
    and cannot be iterated or holds an item that is no string; otherwise
    it returns.  The values of the other keys are never looked into. *)
Theorem fetch_flag_on_type_error (body : pyval) (d : list (string * pyval)) :
  data_field body = VDict d → d ≠ [] →
  if unmaskable (field d "phone_numbers") || unmaskable (field d "id_numbers")
  then fetch nd al true (GetResponse 200 (JsonValue body)) = Raises TypeError
  else ∃ r, fetch nd al true (GetResponse 200 (JsonValue body)) = Returns r.
Proof.
  intros Hd Hne.
  assert (truthy (data_field body) = true) as Ht
    by (rewrite Hd; destruct d; [done|reflexivity]).
  rewrite (fetch_success true body Ht), Hd. unfold _sanitize.
  change DEFAULT_FIELD_ORDER
    with (["names"; "nicknames"]
          ++ "phone_numbers" :: "id_numbers"
          :: ["wb_numbers"; "passwords"; "emails"; "addresses"])%list.
  rewrite foldl_app.
  destruct (foldl_sanitize_pass d ["names"; "nicknames"] [])
    as [a1 ->]; [repeat constructor; discriminate|].
  rewrite foldl_step.
  pose proof (sanitize_step_masked d a1 "phone_numbers" (or_introl eq_refl)) as Hp.
  destruct (unmaskable (field d "phone_numbers")); cbn [orb].
  { rewrite Hp, foldl_sanitize_raises. reflexivity. }
  destruct Hp as [a2 ->]. rewrite foldl_step.
  pose proof (sanitize_step_masked d a2 "id_numbers" (or_intror eq_refl)) as Hi.
  destruct (unmaskable (field d "id_numbers")).
  { rewrite Hi, foldl_sanitize_raises. reflexivity. }
  destruct Hi as [a3 ->].
  destruct (foldl_sanitize_pass d
              ["wb_numbers"; "passwords"; "emails"; "addresses"] a3)
    as [a4 ->]; [repeat constructor; discriminate|].
  cbn. eauto.
Qed.

Lemma mask_phone_one_char c : _mask_phone nd [c] = [star_class (cls_d nd) c].
Proof.
  rewrite mask_phone_none; [reflexivity|].
  apply re_search_phone_none. intros j. apply run_at_short.
  rewrite length_drop. cbn. lia.
Qed.

(** X16: a [phone_numbers] field sent as one string, not as a list, is
    gone through character by character: with the flag on [fetch] returns a
    list of one-character strings in which every digit is a star. *)
Theorem fetch_phone_as_string (s : pystr) :
  s ≠ [] →
  fetch nd al true
    (GetResponse 200 (JsonValue (VDict [("data", VDict [("phone_numbers", VStr s)])])))
  = Returns (VDict [("phone_numbers",
                     VList (map (λ c, VStr [star_class (cls_d nd) c]) s))]).
Proof.
  intros Hs.
  assert (map_raising (py_mask (_mask_phone nd)) (map (λ c, VStr [c]) s)
          = Returns (map (λ c, VStr [star_class (cls_d nd) c]) s)) as Hm.
  { clear Hs. induction s as [|c s IH]; [reflexivity|]. cbn [map map_raising py_mask].
    rewrite mask_phone_one_char. cbn. rewrite IH. reflexivity. }
  assert (truthy (VStr s) = true) as Ht by (destruct s; [done|reflexivity]).
  rewrite fetch_success by reflexivity.
  change (data_field _) with (VDict [("phone_numbers", VStr s)]).
  unfold _sanitize.
  change DEFAULT_FIELD_ORDER
    with (["names"; "nicknames"]
          ++ "phone_numbers"
          :: ["id_numbers"; "wb_numbers"; "passwords"; "emails"; "addresses"])%list.
  rewrite foldl_app.
  change (foldl _ (Returns []) ["names"; "nicknames"])
    with (Returns [] : outcome (list (string * pyval))).
  rewrite foldl_step.
  assert (sanitize_step nd al true (VDict [("phone_numbers", VStr s)])
            (Returns []) "phone_numbers"
          = Returns [("phone_numbers",
                      VList (map (λ c, VStr [star_class (cls_d nd) c]) s))]) as ->.
  { unfold sanitize_step.
    change (py_get _ "phone_numbers") with (Returns (VStr s)).
    cbn [mbind outcome_bind]. rewrite Ht. cbn [negb andb String.eqb Ascii.eqb Bool.eqb].
    change (py_iter (VStr s)) with (Returns (map (λ c, VStr [c]) s)).
    cbn [mbind outcome_bind]. rewrite Hm. reflexivity. }
  reflexivity.
Qed.

End AnyAnswer.

Lemma fetch_attribute_error_witness :
  Untyped.fetch no_table no_table true
    (Untyped.GetResponse 200 (Untyped.JsonValue (Untyped.VDict [("data", Untyped.VStr (py "13812345678"))])))
  = Untyped.Raises Untyped.AttributeError.
Proof.
  apply (proj2 (fetch_attribute_error no_table no_table true
    (Untyped.GetResponse 200 (Untyped.JsonValue (Untyped.VDict [("data", Untyped.VStr (py "13812345678"))]))))).
  split; [reflexivity|]. intros d. discriminate.
Defined.

Lemma fetch_flag_off_witness :
  Untyped.fetch no_table no_table false
    (Untyped.GetResponse 200 (Untyped.JsonValue (Untyped.VDict
       [("data", Untyped.VDict [("qq_numbers", Untyped.VInt 10001);
                                ("emails", Untyped.VList []);
                                ("names", Untyped.VStr (py "Li"))])])))
  = Untyped.Returns (Untyped.VDict [("names", Untyped.VStr (py "Li"))]).
Proof.
  exact (fetch_flag_off no_table no_table
           (Untyped.VDict
              [("data", Untyped.VDict [("qq_numbers", Untyped.VInt 10001);
                                       ("emails", Untyped.VList []);
                                       ("names", Untyped.VStr (py "Li"))])])
           [("qq_numbers", Untyped.VInt 10001);
            ("emails", Untyped.VList []);
            ("names", Untyped.VStr (py "Li"))]
           eq_refl ltac:(discriminate)).
Defined.

Lemma fetch_flag_on_type_error_witness :
  Untyped.fetch no_table no_table true
    (Untyped.GetResponse 200 (Untyped.JsonValue (Untyped.VDict
       [("data", Untyped.VDict
           [("id_numbers", Untyped.VList [Untyped.VStr (py "A1"); Untyped.VNone])])])))
  = Untyped.Raises Untyped.TypeError.
Proof.
  exact (fetch_flag_on_type_error no_table no_table
           (Untyped.VDict
              [("data", Untyped.VDict
                  [("id_numbers", Untyped.VList [Untyped.VStr (py "A1"); Untyped.VNone])])])
           [("id_numbers", Untyped.VList [Untyped.VStr (py "A1"); Untyped.VNone])]
           eq_refl ltac:(discriminate)).
Defined.

Lemma fetch_phone_as_string_witness :
  Untyped.fetch no_table no_table true
    (Untyped.GetResponse 200 (Untyped.JsonValue (Untyped.VDict
       [("data", Untyped.VDict [("phone_numbers", Untyped.VStr (py "13812345678"))])])))
  = Untyped.Returns (Untyped.VDict
      [("phone_numbers",
        Untyped.VList (map (λ c, Untyped.VStr [star_class (cls_d no_table) c])
                           (py "13812345678")))]).
Proof.
  apply (fetch_phone_as_string no_table no_table (py "13812345678")). discriminate.
Defined.
